(** * Multi-persona company research assistant (app.py)

    A shallow embedding of the Streamlit script [app.py]: the persona
    registry, the two content providers, the response generator and the
    two session-state handlers (persona switch, chat input), followed by
    the properties of the conversation state machine.

    Modelling conventions.
    - A Python [str] is a Rocq [string] (its UTF-8 bytes).  [str.lower]
      is modelled on the ASCII letters, which is all the four trigger
      keywords and the persona names involve; the case mapping of the
      other characters is left out.
    - A Python [dict] literal is an association list in insertion order;
      [d[k]] raises [KeyError] on a missing key.
    - Script code runs in the monad [M]: it threads the [world] (session
      state, presentation calls issued so far, requests sent so far) and
      either returns a value or raises a Python exception.  State changes
      made before an exception is raised are kept, as in Python.
    - The hosted completion service and the plotting library are outside
      the repository; they are Section variables that decide, per call,
      whether the call raises and what it returns.  The content of a
      completion may be null, which Python reads as [None].
    - Streamlit identifies a chart drawn without a key by its figure and
      arguments and raises [StreamlitDuplicateElementId] when the same
      chart is drawn twice in one run of the script; the page trace of the
      [world] records what a run has drawn. *)

From Stdlib Require Import String Ascii List Bool Arith ZArith QArith Lia.
Import ListNotations.
Open Scope string_scope.

(** ** Python strings *)

Module PyStr.

(** The newline character written [\n] in the source. *)
Definition nl : string := String "010"%char EmptyString.

Definition is_upper (c : ascii) : bool :=
  let n := nat_of_ascii c in (65 <=? n)%nat && (n <=? 90)%nat.

Definition lower_char (c : ascii) : ascii :=
  if is_upper c then ascii_of_nat (nat_of_ascii c + 32) else c.

(** [s.lower()] *)
Fixpoint lower (s : string) : string :=
  match s with
  | EmptyString => EmptyString
  | String c t => String (lower_char c) (lower t)
  end.

(** [sep.join(xs)] *)
Fixpoint join (sep : string) (xs : list string) : string :=
  match xs with
  | [] => ""
  | [x] => x
  | x :: rest => x ++ sep ++ join sep rest
  end.

(** [needle in hay] *)
Fixpoint contains (needle hay : string) : bool :=
  String.prefix needle hay ||
  match hay with
  | EmptyString => false
  | String _ t => contains needle t
  end.

(** Truthiness of a string: [if s:] holds when [s] is not empty. *)
Definition truthy (s : string) : bool :=
  match s with
  | EmptyString => false
  | String _ _ => true
  end.

End PyStr.

(** ** Exceptions and the script monad *)

Inductive exception : Type :=
| KeyError (key : string)      (* [d[k]] with [k] missing *)
| IndexError                   (* [xs[i]] out of range *)
| ValueError (msg : string)
| Exception (msg : string)     (* raised by an external library; [msg] is [str(e)] *)
| StreamlitDuplicateElementId (msg : string).
                               (* an element drawn twice in one run; [msg] is [str(e)] *)

(** [str(e)].  A [KeyError] prints the [repr] of its key; [py_repr] is
    Python's [repr] on strings. *)
Definition exn_str (py_repr : string -> string) (e : exception) : string :=
  match e with
  | KeyError k => py_repr k
  | IndexError => "list index out of range"
  | ValueError m => m
  | Exception m => m
  | StreamlitDuplicateElementId m => m
  end.

Inductive outcome (A : Type) : Type :=
| Return (a : A)
| Raise (e : exception).
Arguments Return {A} a.
Arguments Raise {A} e.

(** ** Data *)

(** The [role] field of a chat message: the session log holds [user]
    and [assistant] entries, a completion request also a [system] one. *)
Inductive role : Type := system | user | assistant.

(** A chat message.  The content is a string, or [None] when it comes
    from a completion whose content is null. *)
Record message : Type := { msg_role : role; content : option string }.

(** One entry of [USER_PERSONAS]. *)
Record persona : Type := {
  name : string;
  description : string;
  priorities : list string;
  icon : string
}.

(** The keyword arguments of [openai.ChatCompletion.create]. *)
Record request : Type := {
  model : string;
  req_messages : list message;
  temperature : Q;
  max_tokens : Z
}.

(** What the script reads of a completion: [choices[i].message.content],
    a string or [None] (null content). *)
Record response : Type := { choices : list (option string) }.

(** Plotly traces, with the arguments the script passes. *)
Inductive trace : Type :=
| Funnel (y : list string) (x : list Z) (textinfo : string)
         (marker_color : list string)
| Scatterpolar (r : list Z) (theta : list string)
               (fill fillcolor line_color : string)
| Bar (bar_name : string) (x : list string) (y : list Z) (marker_color : string)
| Waterfall (wf_name orientation : string) (measure x : list string)
            (y : list Z) (connector_line_color : string)
| Scatter (x y : list Z) (text : list string) (mode : string)
          (marker_size : Z) (marker_color : list Z) (colorscale : string)
          (showscale : bool).

(** The layout properties the script sets; [None] is "not set". *)
Record layout : Type := {
  title : option string;
  height : option Z;
  barmode : option string;
  polar_radialaxis : option (bool * (Z * Z));   (* visible, range *)
  xaxis_title : option string;
  yaxis_title : option string
}.

Record Figure : Type := { fig_data : list trace; fig_layout : layout }.

(** A data frame built from a dict of columns, in insertion order. *)
Record DataFrame : Type := { columns : list (string * list string) }.

(** [st.session_state]: the conversation state.  ([research_data] is
    initialised to an empty dict and never read or written again.) *)
Record session_state : Type := {
  messages : list message;
  current_persona : string
}.

(** Calls into the presentation layer that the script makes, and the
    start of a run of the script: Streamlit then clears the page and the
    ids of the elements drawn. *)
Inductive ui_event : Type :=
| run_start
| st_text (widget : string) (body : string)  (* st.error, st.header, st.info, ... *)
| st_markdown (body : option string)         (* st.markdown(body) *)
| st_chat_message (r : role)
| st_spinner (body : string)
| st_plotly_chart (fig : Figure)             (* st.plotly_chart(fig, use_container_width=True) *)
| st_dataframe (df : DataFrame).

Definition trace_eq_dec (a b : trace) : {a = b} + {a <> b}.
Proof. repeat decide equality. Defined.

Definition layout_eq_dec (a b : layout) : {a = b} + {a <> b}.
Proof. repeat decide equality. Defined.

Definition Figure_eq_dec (a b : Figure) : {a = b} + {a <> b}.
Proof.
  decide equality; [apply layout_eq_dec | apply (list_eq_dec trace_eq_dec)].
Defined.

(** Whether the chart [fig] has been drawn in the current run: a chart
    call without a key gets its id from the figure and the other
    arguments, which are the same in both chart calls of the script.  (The
    two data frame calls differ in their height argument.) *)
Definition chart_drawn (fig : Figure) (evs : list ui_event) : bool :=
  fold_left (fun drawn ev =>
               match ev with
               | run_start => false
               | st_plotly_chart f =>
                   if Figure_eq_dec f fig then true else drawn
               | _ => drawn
               end) evs false.

Record world : Type := {
  session : session_state;
  ui : list ui_event;         (* presentation calls, oldest first *)
  api_log : list request      (* completion requests sent, oldest first *)
}.

(** Calls into the plotting library. *)
Inductive plotly_call : Type :=
| call_trace (t : trace)                       (* go.Funnel(...), go.Bar(...), ... *)
| call_Figure (data : list trace)              (* go.Figure(...) *)
| call_add_trace (fig : Figure) (t : trace)    (* fig.add_trace(t) *)
| call_update_layout (fig : Figure) (upd : layout).

(** ** The monad of script code *)

Definition M (A : Type) : Type := world -> outcome A * world.

Definition ret {A} (a : A) : M A := fun w => (Return a, w).

Definition raise {A} (e : exception) : M A := fun w => (Raise e, w).

Definition bind {A B} (m : M A) (k : A -> M B) : M B :=
  fun w =>
    match m w with
    | (Return a, w') => k a w'
    | (Raise e, w') => (Raise e, w')
    end.

(** [try: body except Exception as e: handler(e)] *)
Definition try_except {A} (body : M A) (handler : exception -> M A) : M A :=
  fun w =>
    match body w with
    | (Return a, w') => (Return a, w')
    | (Raise e, w') => handler e w'
    end.

Declare Scope py_scope.
Delimit Scope py_scope with py.
Notation "x <- m ;; k" := (bind m (fun x => k))
  (at level 61, m at next level, right associativity) : py_scope.
Notation "m ;; k" := (bind m (fun _ => k))
  (at level 61, right associativity) : py_scope.
Open Scope py_scope.

Definition get_session : M session_state := fun w => (Return (session w), w).

Definition put_session (s : session_state) : M unit :=
  fun w => (Return tt, {| session := s; ui := ui w; api_log := api_log w |}).

(** [st.session_state.messages.append(m)] *)
Definition messages_append (m : message) : M unit :=
  s <- get_session ;;
  put_session {| messages := messages s ++ [m];
                 current_persona := current_persona s |}.

(** [st.session_state.current_persona = k] *)
Definition set_current_persona (k : string) : M unit :=
  s <- get_session ;;
  put_session {| messages := messages s; current_persona := k |}.

Definition emit (ev : ui_event) : M unit :=
  fun w => (Return tt, {| session := session w; ui := ui w ++ [ev];
                          api_log := api_log w |}).

(** [d[k]] on a dict *)
Fixpoint dict_get {V} (d : list (string * V)) (k : string) : M V :=
  match d with
  | [] => raise (KeyError k)
  | (k', v) :: rest => if String.eqb k k' then ret v else dict_get rest k
  end.

(** [xs[i]] on a list, for [i >= 0] *)
Definition list_get {V} (xs : list V) (i : nat) : M V :=
  match nth_error xs i with
  | Some v => ret v
  | None => raise IndexError
  end.

(** [for x in xs: body(x)] *)
Fixpoint for_each {V} (xs : list V) (body : V -> M unit) : M unit :=
  match xs with
  | [] => ret tt
  | x :: rest => body x ;; for_each rest body
  end.

(** ** The persona registry *)

Definition USER_PERSONAS : list (string * persona) :=
  [ ("sales_executive",
     {| name := "Sales Executive";
        description := "Focuses on revenue opportunities and sales strategies";
        priorities := ["revenue growth"; "client acquisition"; "sales metrics"];
        icon := "💰" |});
    ("market_researcher",
     {| name := "Market Researcher";
        description := "Focuses on market trends and competitive analysis";
        priorities := ["market share"; "industry trends"; "competitive landscape"];
        icon := "📊" |});
    ("financial_analyst",
     {| name := "Financial Analyst";
        description := "Focuses on financial metrics and ROI analysis";
        priorities := ["financial performance"; "ROI analysis"; "risk assessment"];
        icon := "💹" |});
    ("strategic_planner",
     {| name := "Strategic Planner";
        description := "Focuses on long-term strategy and growth opportunities";
        priorities := ["strategic initiatives"; "growth opportunities";
                       "market positioning"];
        icon := "🛣️" |});
    ("product_manager",
     {| name := "Product Manager";
        description := "Focuses on product opportunities and feature analysis";
        priorities := ["product-market fit"; "feature analysis"; "customer needs"];
        icon := "🎯" |}) ].

(** [list(USER_PERSONAS.keys())]: the options of the sidebar selector. *)
Definition persona_keys : list string := map fst USER_PERSONAS.

(** The role directives, the local dict [prompts] of [generate_ai_response]. *)
Definition prompts : list (string * string) :=
  [ ("sales_executive",
     "You are a sales executive. Focus on revenue opportunities, sales metrics, pipeline value, conversion rates, and actionable sales strategies. Provide specific numbers and revenue projections.");
    ("market_researcher",
     "You are a market researcher. Focus on market size, growth rates, competitive analysis, consumer trends, and market share data. Provide comprehensive market intelligence.");
    ("financial_analyst",
     "You are a financial analyst. Focus on financial metrics, ROI calculations, risk assessment, valuation, and investment recommendations. Provide precise financial numbers.");
    ("strategic_planner",
     "You are a strategic planner. Focus on long-term strategy, growth opportunities, strategic initiatives, and implementation roadmaps. Provide forward-looking insights.");
    ("product_manager",
     "You are a product manager. Focus on product opportunities, feature analysis, user needs, and product roadmap. Provide user-centric recommendations.") ].

(** The session state the script creates on its first run. *)
Definition welcome : message :=
  {| msg_role := assistant;
     content := Some "👋 **Welcome!** I'm your multi-persona Company Research Assistant. Select your role from the sidebar to get started with customized insights!" |}.

Definition initial_session : session_state :=
  {| messages := [welcome]; current_persona := "sales_executive" |}.

Definition initial_world : world :=
  {| session := initial_session; ui := []; api_log := [] |}.

(** ** Fixed texts of the response generator *)

Definition focus_instruction : string :=
  PyStr.nl ++ PyStr.nl ++
  "Always provide specific numbers, metrics, and data-driven insights. Use the persona's focus areas: ".

(** The system prompt: the directive, the fixed instruction, then the
    priorities joined by a comma and a space. *)
Definition system_prompt_of (directive : string) (p : persona) : string :=
  directive ++ focus_instruction ++ PyStr.join ", " (priorities p).

Definition fallback_tail : string :=
  ". Based on typical industry data:" ++ PyStr.nl ++ PyStr.nl ++
  "- **Key Metric:** 15-25% growth potential" ++ PyStr.nl ++
  "- **Opportunity Size:** $2-5M addressable market" ++ PyStr.nl ++
  "- **Implementation Timeline:** 6-12 months" ++ PyStr.nl ++
  "- **Success Probability:** 70-80%" ++ PyStr.nl ++ PyStr.nl ++
  "*Note: Add your OpenRouter API key to secrets.toml for AI-powered analysis*".

(** The fallback response returned without an API key. *)
Definition fallback_text (p : persona) (first_priority : string) : string :=
  "**" ++ name p ++ " Analysis:** As a " ++ PyStr.lower (name p) ++
  ", I would analyze this focusing on " ++ first_priority ++ fallback_tail.

Definition error_text (py_repr : string -> string) (e : exception) : string :=
  "**Analysis:** I encountered an error processing your request. Error: " ++
  exn_str py_repr e.

(** The request of [generate_ai_response]. *)
Definition completion_request (system_prompt user_input : string) : request :=
  {| model := "mistralai/mixtral-8x7b-instruct";
     req_messages := [ {| msg_role := system; content := Some system_prompt |};
                       {| msg_role := user; content := Some user_input |} ];
     temperature := 3 # 10;
     max_tokens := 1000 |}.

(** The trigger keywords of the chat input handler. *)
Definition keywords : list string := ["analyze"; "research"; "data"; "metrics"].

(** [any(keyword in user_input.lower() for keyword in keywords)] *)
Definition mentions_keyword (user_input : string) : bool :=
  existsb (fun keyword => PyStr.contains keyword (PyStr.lower user_input)) keywords.

(** The announcement appended on a persona switch. *)
Definition announcement (p : persona) : message :=
  {| msg_role := assistant;
     content := Some ("🔄 **Switched to " ++ icon p ++ " " ++ name p ++ " Mode**" ++
                      PyStr.nl ++ PyStr.nl ++ "*" ++ description p ++ "*" ++
                      PyStr.nl ++ PyStr.nl ++ "**Focus areas:** " ++
                      PyStr.join ", " (priorities p)) |}.

(** ** Layouts *)

Definition no_layout : layout :=
  {| title := None; height := None; barmode := None; polar_radialaxis := None;
     xaxis_title := None; yaxis_title := None |}.

Definition override {A} (old new : option A) : option A :=
  match new with
  | Some v => Some v
  | None => old
  end.

(** The layout after [fig.update_layout] with the properties of [upd]:
    the properties given are set, the others keep their value. *)
Definition layout_update (old upd : layout) : layout :=
  {| title := override (title old) (title upd);
     height := override (height old) (height upd);
     barmode := override (barmode old) (barmode upd);
     polar_radialaxis := override (polar_radialaxis old) (polar_radialaxis upd);
     xaxis_title := override (xaxis_title old) (xaxis_title upd);
     yaxis_title := override (yaxis_title old) (yaxis_title upd) |}.

(** ** The script *)

Section App.

(** Python's [repr] on strings. *)
Variable py_repr : string -> string.

(** The message of the exception Streamlit raises when a chart is drawn
    a second time in one run with the same figure and arguments. *)
Variable duplicate_id_message : string.

(** [api_key], read once from the secrets when the script starts. *)
Variable api_key : string.

(** Whether [import plotly] succeeded. *)
Variable PLOTLY_AVAILABLE : bool.

(** The completion service: given the requests already sent and the
    current one, the call returns a response or raises. *)
Variable service : list request -> request -> outcome response.

(** The plotting library: a call raises the exception given, if any. *)
Variable plotly_raises : plotly_call -> option exception.

Definition plotly {A} (c : plotly_call) (result : A) : M A :=
  match plotly_raises c with
  | Some e => raise e
  | None => ret result
  end.

Definition go_trace (t : trace) : M trace := plotly (call_trace t) t.

Definition go_Figure (data : list trace) : M Figure :=
  plotly (call_Figure data) {| fig_data := data; fig_layout := no_layout |}.

Definition add_trace (fig : Figure) (t : trace) : M Figure :=
  plotly (call_add_trace fig t)
         {| fig_data := fig_data fig ++ [t]; fig_layout := fig_layout fig |}.

Definition update_layout (fig : Figure) (upd : layout) : M Figure :=
  plotly (call_update_layout fig upd)
         {| fig_data := fig_data fig;
            fig_layout := layout_update (fig_layout fig) upd |}.

(** [pd.DataFrame(data)]: raises when the columns differ in length. *)
Definition pd_DataFrame (data : list (string * list string)) : M DataFrame :=
  match data with
  | [] => ret {| columns := [] |}
  | (_, col) :: rest =>
      if forallb (fun c => length (snd c) =? length col)%nat rest
      then ret {| columns := data |}
      else raise (ValueError "All arrays must be of the same length")
  end.

(** [openai.ChatCompletion.create(...)] *)
Definition ChatCompletion_create (req : request) : M response :=
  fun w =>
    let w' := {| session := session w; ui := ui w;
                 api_log := api_log w ++ [req] |} in
    match service (api_log w) req with
    | Return resp => (Return resp, w')
    | Raise e => (Raise e, w')
    end.

(** *** Visualization *)

Definition sales_funnel : M Figure :=
  t <- go_trace (Funnel ["Leads"; "MQLs"; "SQLs"; "Opportunities"; "Closed Won"]
                        [1000; 800; 400; 200; 80]%Z
                        "value+percent initial"
                        ["#1f77b4"; "#ff7f0e"; "#2ca02c"; "#d62728"; "#9467bd"]) ;;
  fig <- go_Figure [t] ;;
  update_layout fig
    {| title := Some "💰 Sales Funnel Performance"; height := Some 400%Z;
       barmode := None; polar_radialaxis := None;
       xaxis_title := None; yaxis_title := None |}.

Definition market_radar : M Figure :=
  let categories := ["Market Share"; "Growth Rate"; "Customer Sat"; "Brand Awareness"] in
  let values := [25; 18; 82; 65]%Z in
  t <- go_trace (Scatterpolar values categories "toself"
                              "rgba(31, 119, 180, 0.5)" "rgb(31, 119, 180)") ;;
  fig <- go_Figure [t] ;;
  update_layout fig
    {| title := Some "📊 Market Position Analysis"; height := Some 400%Z;
       barmode := None; polar_radialaxis := Some (true, (0, 100)%Z);
       xaxis_title := None; yaxis_title := None |}.

Definition financial_bars : M Figure :=
  let years := ["2022"; "2023"; "2024"; "2025"] in
  let revenue := [500; 650; 820; 1050]%Z in
  let profit := [75; 110; 160; 220]%Z in
  fig <- go_Figure [] ;;
  t1 <- go_trace (Bar "Revenue ($M)" years revenue "#2ca02c") ;;
  fig <- add_trace fig t1 ;;
  t2 <- go_trace (Bar "Profit ($M)" years profit "#1f77b4") ;;
  fig <- add_trace fig t2 ;;
  update_layout fig
    {| title := Some "💹 Financial Performance"; height := Some 400%Z;
       barmode := Some "group"; polar_radialaxis := None;
       xaxis_title := None; yaxis_title := None |}.

Definition strategy_waterfall : M Figure :=
  let phases := ["Foundation"; "Growth"; "Expansion"; "Leadership"] in
  let resources := [1; 2; 2; 1]%Z in
  t <- go_trace (Waterfall "Strategic Roadmap" "v"
                           ["relative"; "relative"; "relative"; "total"]
                           phases resources "rgb(63, 63, 63)") ;;
  fig <- go_Figure [t] ;;
  update_layout fig
    {| title := Some "🛣️ Strategic Implementation Timeline"; height := Some 400%Z;
       barmode := None; polar_radialaxis := None;
       xaxis_title := None; yaxis_title := None |}.

Definition product_scatter : M Figure :=
  let features := ["Feature A"; "Feature B"; "Feature C"; "Feature D"] in
  let impact := [85; 70; 60; 45]%Z in
  let effort := [30; 50; 70; 40]%Z in
  fig <- go_Figure [] ;;
  t <- go_trace (Scatter effort impact features "markers+text"
                         20%Z impact "Viridis" true) ;;
  fig <- add_trace fig t ;;
  update_layout fig
    {| title := Some "🎯 Feature Impact vs Effort Analysis"; height := Some 400%Z;
       barmode := None; polar_radialaxis := None;
       xaxis_title := Some "Implementation Effort";
       yaxis_title := Some "Business Impact" |}.

(** The chain of comparisons on [persona_key], last branch [else]. *)
Definition chart_of (persona_key : string) : M Figure :=
  if String.eqb persona_key "sales_executive" then sales_funnel
  else if String.eqb persona_key "market_researcher" then market_radar
  else if String.eqb persona_key "financial_analyst" then financial_bars
  else if String.eqb persona_key "strategic_planner" then strategy_waterfall
  else product_scatter.

Definition create_persona_chart (persona_key : string) : M (option Figure) :=
  if negb PLOTLY_AVAILABLE then ret None
  else
    try_except
      (fig <- chart_of persona_key ;;
       ret (Some fig))
      (fun e =>
         emit (st_text "error" ("Chart error: " ++ exn_str py_repr e)) ;;
         ret None).

(** [st.plotly_chart(fig, use_container_width=True)].  Streamlit gives a
    chart drawn without a key an id made from the figure and the other
    arguments, and raises when that id is on the page of the run already. *)
Definition plotly_chart (fig : Figure) : M unit :=
  fun w =>
    if chart_drawn fig (ui w)
    then (Raise (StreamlitDuplicateElementId duplicate_id_message), w)
    else emit (st_plotly_chart fig) w.

(** *** Data tables *)

Definition table_of (persona_key : string) : list (string * list string) :=
  if String.eqb persona_key "sales_executive" then
    [ ("Metric", ["Pipeline Value"; "Conversion Rate"; "Avg Deal Size"; "Sales Cycle"]);
      ("Value", ["$2.5M"; "22%"; "$125K"; "67 days"]);
      ("Target", ["$3.0M"; "25%"; "$140K"; "60 days"]) ]
  else if String.eqb persona_key "market_researcher" then
    [ ("Metric", ["Market Size"; "Growth Rate"; "Market Share"; "Competitors"]);
      ("Value", ["$15B"; "18%"; "12%"; "8 major"]);
      ("Trend", ["Growing"; "Accelerating"; "Increasing"; "Consolidating"]) ]
  else if String.eqb persona_key "financial_analyst" then
    [ ("Metric", ["Revenue"; "Profit Margin"; "ROI"; "Valuation"]);
      ("Value", ["$850M"; "18.5%"; "22%"; "$4.2B"]);
      ("YoY Growth", ["+24%"; "+2.1%"; "+3.5%"; "+28%"]) ]
  else if String.eqb persona_key "strategic_planner" then
    [ ("Initiative", ["Market Expansion"; "Product Innovation"; "Digital Transformation"]);
      ("Timeline", ["6-12 months"; "12-18 months"; "18-24 months"]);
      ("Investment", ["$5M"; "$8M"; "$12M"]);
      ("ROI Potential", ["35%"; "42%"; "28%"]) ]
  else
    [ ("Feature", ["AI Integration"; "Mobile App"; "API Access"; "Analytics"]);
      ("User Impact", ["High"; "Medium"; "Low"; "High"]);
      ("Development Effort", ["High"; "Medium"; "Low"; "Medium"]);
      ("Priority", ["P0"; "P1"; "P2"; "P0"]) ].

Definition create_persona_data (persona_key : string) : M DataFrame :=
  pd_DataFrame (table_of persona_key).

(** *** Response generation *)

(** The result is a string, or [None] when it is the null content of a
    completion. *)
Definition generate_ai_response (user_input persona_key : string)
  : M (option string) :=
  persona <- dict_get USER_PERSONAS persona_key ;;
  directive <- dict_get prompts persona_key ;;
  let system_prompt := system_prompt_of directive persona in
  try_except
    (if PyStr.truthy api_key then
       response <- ChatCompletion_create
                     (completion_request system_prompt user_input) ;;
       list_get (choices response) 0
     else
       first_priority <- list_get (priorities persona) 0 ;;
       ret (Some (fallback_text persona first_priority)))
    (fun e => ret (Some (error_text py_repr e))).

(** *** Persona selection *)

(** The update that follows the sidebar selector; [selected_persona] is
    the selector's value.  The source looks the selected persona up once
    per field of the announcement; the registry is constant, so one
    lookup stands for them. *)
Definition switch_persona (selected_persona : string) : M unit :=
  s <- get_session ;;
  if negb (String.eqb selected_persona (current_persona s)) then
    set_current_persona selected_persona ;;
    p <- dict_get USER_PERSONAS selected_persona ;;
    messages_append (announcement p)
  else ret tt.

(** *** Chat input *)

(** The chart and table shown with a response that mentions a keyword. *)
Definition show_analytics : M unit :=
  (if PLOTLY_AVAILABLE then
     s <- get_session ;;
     chart <- create_persona_chart (current_persona s) ;;
     match chart with
     | Some fig => plotly_chart fig
     | None => ret tt
     end
   else ret tt) ;;
  s <- get_session ;;
  data_df <- create_persona_data (current_persona s) ;;
  emit (st_dataframe data_df).

(** The handler of the chat input; [user_input] is what [st.chat_input]
    returned ([None] when nothing was submitted) and [current] the
    registry entry of the active persona, looked up earlier in the run. *)
Definition submit (current : persona) (user_input : option string) : M unit :=
  match user_input with
  | None => ret tt
  | Some text =>
      if PyStr.truthy text then
        messages_append {| msg_role := user; content := Some text |} ;;
        emit (st_chat_message user) ;;
        emit (st_markdown (Some text)) ;;
        emit (st_chat_message assistant) ;;
        emit (st_spinner ("🔍 " ++ icon current ++ " Analyzing...")) ;;
        s <- get_session ;;
        response <- generate_ai_response text (current_persona s) ;;
        emit (st_markdown response) ;;
        (if mentions_keyword text then show_analytics else ret tt) ;;
        messages_append {| msg_role := assistant; content := response |}
      else ret tt
  end.

(** *** One run of the script

    Streamlit runs the script from top to bottom on every user action.
    The static page chrome (title, warnings, installation help) is left
    out. *)

(** The transcript and the analytics panel. *)
Definition main_chat_interface (current : persona) : M unit :=
  emit (st_text "header" (icon current ++ " " ++ name current ++ " Conversation")) ;;
  s <- get_session ;;
  for_each (messages s)
           (fun m => emit (st_chat_message (msg_role m)) ;;
                     emit (st_markdown (content m))) ;;
  emit (st_text "subheader" "📈 Persona-Specific Analytics") ;;
  (if PLOTLY_AVAILABLE then
     s <- get_session ;;
     chart <- create_persona_chart (current_persona s) ;;
     match chart with
     | Some fig => plotly_chart fig
     | None => ret tt
     end
   else
     emit (st_text "info"
                   "📊 *Install plotly for interactive charts: `pip install plotly`*")) ;;
  s <- get_session ;;
  data_df <- create_persona_data (current_persona s) ;;
  emit (st_dataframe data_df).

Definition footer (current : persona) : M unit :=
  emit (st_markdown (Some "---")) ;;
  p0 <- list_get (priorities current) 0 ;;
  p1 <- list_get (priorities current) 1 ;;
  emit (st_markdown
          (Some ("💡 **" ++ icon current ++ " " ++ name current ++ " Tip**: Focus on **" ++
                 p0 ++ "** and **" ++ p1 ++ "** for maximum impact!"))).

Definition script (selected_persona : string) (user_input : option string)
  : M unit :=
  emit run_start ;;
  switch_persona selected_persona ;;
  s <- get_session ;;
  current <- dict_get USER_PERSONAS (current_persona s) ;;
  emit (st_text "sidebar.success"
                ("**Active Role:** " ++ icon current ++ " " ++ name current)) ;;
  main_chat_interface current ;;
  submit current user_input ;;
  footer current.

(** A sequence of selector values handled one after the other. *)
Fixpoint switch_all (keys : list string) : M unit :=
  match keys with
  | [] => ret tt
  | k :: rest => switch_persona k ;; switch_all rest
  end.

(** Each content provider called twice in a row, results collected. *)
Definition providers_twice (persona_key : string)
  : M (DataFrame * option Figure * DataFrame * option Figure) :=
  d1 <- create_persona_data persona_key ;;
  c1 <- create_persona_chart persona_key ;;
  d2 <- create_persona_data persona_key ;;
  c2 <- create_persona_chart persona_key ;;
  ret (d1, c1, d2, c2).

(** What the analytics panel shows above the table. *)
Definition panel_shows (k : string) (w : world) (panel : list ui_event) : Prop :=
  (PLOTLY_AVAILABLE = false ->
   panel = [st_text "info"
                    "📊 *Install plotly for interactive charts: `pip install plotly`*"]) /\
  (forall fig, PLOTLY_AVAILABLE = true ->
     fst (chart_of k w) = Return fig ->
     panel = [st_plotly_chart fig]) /\
  (forall e, PLOTLY_AVAILABLE = true ->
     fst (chart_of k w) = Raise e ->
     panel = [st_text "error" ("Chart error: " ++ exn_str py_repr e)]).

(** The chat input handler draws again a chart of the run: the text
    mentions a keyword, plotting is available, and the chart of [k] builds
    and is on the page already. *)
Definition redraws_chart (k text : string) (w : world) : Prop :=
  mentions_keyword text = true /\
  PLOTLY_AVAILABLE = true /\
  exists fig, fst (chart_of k w) = Return fig /\ chart_drawn fig (ui w) = true.

(** A run of the script on a submitted text draws the chart of [k] twice:
    in the analytics panel, and again with the response. *)
Definition draws_chart_twice (k text : string) (w : world) : Prop :=
  mentions_keyword text = true /\
  PLOTLY_AVAILABLE = true /\
  exists fig, fst (chart_of k w) = Return fig.

(** A series of user actions, each handled by one run of the script:
    the selector's value and what the chat input returned.  An exception
    ends the run that raised it; the session state stays, and the next
    action starts the next run.  The result is how each run ended. *)
Fixpoint run_all (actions : list (string * option string)) (w : world)
  : list (outcome unit) * world :=
  match actions with
  | [] => ([], w)
  | (selected_persona, user_input) :: rest =>
      let (o, w1) := script selected_persona user_input w in
      let (os, w') := run_all rest w1 in
      (o :: os, w')
  end.

End App.

(** ** Session initialisation *)

(** [st.session_state] when the script starts: each of the three
    entries may be missing. *)
Record raw_session_state : Type := {
  raw_messages : option (list message);
  raw_current_persona : option string;
  raw_research_data : option (list (string * string))
}.

(** The three guarded assignments under SESSION STATE: an entry is set
    when it is not in the session state yet. *)
Definition init_session_state (r : raw_session_state) : raw_session_state :=
  {| raw_messages :=
       match raw_messages r with
       | Some m => Some m
       | None => Some [welcome]
       end;
     raw_current_persona :=
       match raw_current_persona r with
       | Some k => Some k
       | None => Some "sales_executive"
       end;
     raw_research_data :=
       match raw_research_data r with
       | Some d => Some d
       | None => Some []
       end |}.

(** ** Counting what a series of actions appends *)

(** The chat input handler acts on [user_input]: a text was submitted
    and it is not empty. *)
Definition submitted (user_input : option string) : bool :=
  match user_input with
  | Some text => PyStr.truthy text
  | None => false
  end.

(** Messages a series of actions appends, starting with [cur] active:
    one for each selector value that differs from the active key, two
    for each submitted text. *)
Fixpoint expected_growth (cur : string) (actions : list (string * option string))
  : nat :=
  match actions with
  | [] => 0
  | (k, user_input) :: rest =>
      (if String.eqb k cur then 0 else 1) +
      (if submitted user_input then 2 else 0) +
      expected_growth k rest
  end.

(** Texts submitted in a series of actions. *)
Definition submissions (actions : list (string * option string)) : nat :=
  length (filter (fun a => submitted (snd a)) actions).

(** Every key of [keys] differs from the one before it, the first from [cur]. *)
Fixpoint changes_each_time (cur : string) (keys : list string) : Prop :=
  match keys with
  | [] => True
  | k :: rest => k <> cur /\ changes_each_time k rest
  end.

(** ** Switch sequences *)

(** The selector values that differ from the persona active when they
    arrive, starting from [cur]: the switches that are not no-ops. *)
Fixpoint effective_switches (cur : string) (keys : list string) : list string :=
  match keys with
  | [] => []
  | k :: rest =>
      if String.eqb k cur then effective_switches cur rest
      else k :: effective_switches k rest
  end.

(** [m] is the announcement of the registry persona with key [k]. *)
Definition announces (k : string) (m : message) : Prop :=
  exists p, In (k, p) USER_PERSONAS /\ m = announcement p.

(** An event that neither starts a run nor draws a chart. *)
Definition plain (ev : ui_event) : bool :=
  match ev with
  | run_start | st_plotly_chart _ => false
  | _ => true
  end.

(** ** Sample environments *)

(** A service whose completion has one choice with empty content. *)
Definition empty_completion (_ : list request) (_ : request) : outcome response :=
  Return {| choices := [Some ""] |}.

(** A service whose completion has one choice with null content. *)
Definition null_completion (_ : list request) (_ : request) : outcome response :=
  Return {| choices := [None] |}.

(** A service that answers every request with the same sentence. *)
Definition canned_service (_ : list request) (_ : request) : outcome response :=
  Return {| choices := [Some "The market grows 18% a year."] |}.

(** A service that is unreachable. *)
Definition unreachable_service (_ : list request) (_ : request) : outcome response :=
  Raise (Exception "Connection refused").

(** A configured credential. *)
Definition demo_key : string := "sk-or-v1-demo".

(** [repr] as it is on a string without quotes, backslashes and
    characters that are not printable. *)
Definition plain_repr (s : string) : string := "'" ++ s ++ "'".

(** A message for the duplicate id exception. *)
Definition demo_duplicate_message : string :=
  "There are multiple `plotly_chart` elements with the same auto-generated ID.".

(** The registry entry of the default persona. *)
Definition sales_entry : persona :=
  {| name := "Sales Executive";
     description := "Focuses on revenue opportunities and sales strategies";
     priorities := ["revenue growth"; "client acquisition"; "sales metrics"];
     icon := "💰" |}.

(** A plotting library in which every call succeeds. *)
Definition plotly_works (_ : plotly_call) : option exception := None.

(** A plotting library whose [update_layout] raises. *)
Definition plotly_layout_broken (c : plotly_call) : option exception :=
  match c with
  | call_update_layout _ _ => Some (ValueError "Invalid property")
  | _ => None
  end.

(** * Properties *)

(** ** Strings *)

Lemma prefix_iff (n h : string) :
  String.prefix n h = true <-> exists post, h = n ++ post.
Proof.
  revert h. induction n as [|a n IH]; intros h.
  - split; [intros _; exists h; reflexivity | intros _; destruct h; reflexivity].
  - destruct h as [|b h]; simpl.
    + split; [discriminate | intros [post H]; discriminate H].
    + destruct (ascii_dec a b) as [->|Hab].
      * rewrite IH. split; intros [post H]; exists post.
        -- now rewrite H.
        -- now injection H.
      * split; [discriminate | intros [post H]].
        injection H as Hb _. congruence.
Qed.

Lemma contains_iff (n h : string) :
  PyStr.contains n h = true <-> exists pre post, h = pre ++ n ++ post.
Proof.
  induction h as [|c h IH]; cbn [PyStr.contains].
  - rewrite orb_false_r, prefix_iff. split.
    + intros [post H]. exists "", post. exact H.
    + intros [pre [post H]]. destruct pre; [exists post; exact H | discriminate H].
  - rewrite orb_true_iff, prefix_iff, IH. split.
    + intros [[post H] | [pre [post H]]].
      * exists "", post. exact H.
      * exists (String c pre), post. simpl. now rewrite H.
    + intros [pre [post H]]. destruct pre as [|c' pre]; simpl in H.
      * left. exists post. exact H.
      * right. injection H as _ H. exists pre, post. exact H.
Qed.

Lemma str_app_assoc (a b c : string) : (a ++ b) ++ c = a ++ (b ++ c).
Proof. induction a as [|x a IH]; simpl; [reflexivity | now rewrite IH]. Qed.

Lemma contains_infix (pre n post : string) :
  PyStr.contains n (pre ++ n ++ post) = true.
Proof. apply contains_iff. exists pre, post. reflexivity. Qed.

Lemma truthy_iff (s : string) : PyStr.truthy s = true <-> s <> "".
Proof. destruct s; simpl; split; congruence. Qed.

Lemma app_nonempty (a b : string) : a <> "" -> a ++ b <> "".
Proof. destruct a; simpl; congruence. Qed.

(** ** The registry *)

Lemma persona_keys_cases (k : string) :
  In k persona_keys ->
  k = "sales_executive" \/ k = "market_researcher" \/ k = "financial_analyst" \/
  k = "strategic_planner" \/ k = "product_manager".
Proof. simpl. intuition auto. Qed.

Lemma dict_get_missing {V} (d : list (string * V)) (k : string) (w : world) :
  ~ In k (map fst d) -> dict_get d k w = (Raise (KeyError k), w).
Proof.
  induction d as [|[k' v] d IH]; simpl; intros Hk.
  - reflexivity.
  - destruct (String.eqb_spec k k') as [->|_].
    + exfalso. apply Hk. now left.
    + apply IH. intros H. apply Hk. now right.
Qed.

(** A registry key has an entry with at least two priorities, and a
    role directive. *)
Lemma registry_entry (k : string) :
  In k persona_keys ->
  exists p directive p0 p1 rest,
    In (k, p) USER_PERSONAS /\ In (k, directive) prompts /\
    priorities p = p0 :: p1 :: rest /\
    (forall w, dict_get USER_PERSONAS k w = (Return p, w)) /\
    (forall w, dict_get prompts k w = (Return directive, w)).
Proof.
  intros H.
  destruct (persona_keys_cases k H) as [-> | [-> | [-> | [-> | ->]]]];
    do 5 eexists; (split; [|split; [|split; [|split]]]);
    try (intros w; reflexivity); try reflexivity; simpl; auto 10.
Qed.

(** An entry of the registry is found under its key only. *)
Lemma registry_functional (k : string) (p q : persona) :
  In (k, p) USER_PERSONAS -> In (k, q) USER_PERSONAS -> p = q.
Proof.
  unfold USER_PERSONAS. intros Hp Hq.
  repeat (destruct Hp as [Hp|Hp]; [inversion Hp; subst; clear Hp|]);
    try contradiction;
    repeat (destruct Hq as [Hq|Hq]; [inversion Hq; subst; clear Hq|]);
    try contradiction; try reflexivity; try discriminate.
Qed.

Section Properties.

Variable py_repr : string -> string.
Variable duplicate_id_message : string.
Variable api_key : string.
Variable PLOTLY_AVAILABLE : bool.
Variable service : list request -> request -> outcome response.
Variable plotly_raises : plotly_call -> option exception.

Local Abbreviation generate := (generate_ai_response py_repr api_key service).
Local Abbreviation chart :=
  (create_persona_chart py_repr PLOTLY_AVAILABLE plotly_raises).
Local Abbreviation table := create_persona_data.
Local Abbreviation handle_submit :=
  (submit py_repr duplicate_id_message api_key PLOTLY_AVAILABLE service plotly_raises).
Local Abbreviation run_script :=
  (script py_repr duplicate_id_message api_key PLOTLY_AVAILABLE service plotly_raises).
Local Abbreviation duplicate_id :=
  (StreamlitDuplicateElementId duplicate_id_message).

(** ** The response generator *)

Lemma error_text_nonempty (e : exception) : error_text py_repr e <> "".
Proof. unfold error_text. apply app_nonempty. discriminate. Qed.

Lemma fallback_text_nonempty (p : persona) (t : string) : fallback_text p t <> "".
Proof. unfold fallback_text. apply app_nonempty. discriminate. Qed.

(** The generator on a registry key, by cases on the credential and on
    what the service does. *)
Lemma generate_cases (text k : string) :
  In k persona_keys ->
  exists p directive p0 p1 rest,
    In (k, p) USER_PERSONAS /\ In (k, directive) prompts /\
    priorities p = p0 :: p1 :: rest /\
    forall w, generate text k w =
      if PyStr.truthy api_key then
        let req := completion_request (system_prompt_of directive p) text in
        let w' := {| session := session w; ui := ui w;
                     api_log := api_log w ++ [req] |} in
        match service (api_log w) req with
        | Return resp =>
            match choices resp with
            | c :: _ => (Return c, w')
            | [] => (Return (Some (error_text py_repr IndexError)), w')
            end
        | Raise e => (Return (Some (error_text py_repr e)), w')
        end
      else (Return (Some (fallback_text p p0)), w).
Proof.
  intros Hk.
  destruct (registry_entry k Hk) as (p & d & p0 & p1 & rest & Hp & Hd & Hpr & Hgp & Hgd).
  exists p, d, p0, p1, rest.
  split; [exact Hp|]. split; [exact Hd|]. split; [exact Hpr|]. intros w.
  unfold generate_ai_response, bind, try_except. rewrite Hgp, Hgd.
  destruct (PyStr.truthy api_key).
  - unfold ChatCompletion_create.
    destruct (service (api_log w) _) as [resp|e]; [|reflexivity].
    unfold list_get. destruct (choices resp); reflexivity.
  - unfold list_get. rewrite Hpr. reflexivity.
Qed.

(** C1 (amended).  For every input text and every registry key the
    generator returns and raises nothing, whatever the service does, and
    leaves the session state alone.  What it returns is a string that is
    not empty, except when a credential is configured and the service
    answers with a completion whose first choice has empty or null
    content: that content, the empty string or [None], is returned as it
    is. *)
Theorem generate_ai_response_returns_text (text k : string) (w : world) :
  In k persona_keys ->
  exists r w',
    generate text k w = (Return r, w') /\
    session w' = session w /\
    ((exists s, r = Some s /\ s <> "") \/
     (PyStr.truthy api_key = true /\
      (r = None \/ r = Some "") /\
      exists req resp others,
        api_log w' = (api_log w ++ [req])%list /\
        service (api_log w) req = Return resp /\
        choices resp = r :: others)).
Proof.
  intros Hk.
  destruct (generate_cases text k Hk) as (p & d & p0 & p1 & rest & _ & _ & _ & Hg).
  rewrite Hg. clear Hg.
  destruct (PyStr.truthy api_key) eqn:Hkey.
  - cbv zeta.
    destruct (service (api_log w) _) as [resp|e] eqn:Hs.
    + destruct (choices resp) as [|c others] eqn:Hc.
      * do 2 eexists. split; [reflexivity|]. split; [reflexivity|].
        left. eexists. split; [reflexivity | apply error_text_nonempty].
      * do 2 eexists. split; [reflexivity|]. split; [reflexivity|].
        destruct c as [[|a c]|].
        -- right. split; [reflexivity|]. split; [now right|].
           do 3 eexists. repeat split; eauto.
        -- left. eexists. split; [reflexivity | discriminate].
        -- right. split; [reflexivity|]. split; [now left|].
           do 3 eexists. repeat split; eauto.
    + do 2 eexists. split; [reflexivity|]. split; [reflexivity|].
      left. eexists. split; [reflexivity | apply error_text_nonempty].
  - do 2 eexists. split; [reflexivity|]. split; [reflexivity|].
    left. eexists. split; [reflexivity | apply fallback_text_nonempty].
Qed.

(** C2.  Without a credential the generator returns, for every text and
    every registry key, the fallback text built from the persona's name
    and first priority; the text contains the display name, and the
    world is unchanged: no request is sent. *)
Theorem generate_ai_response_fallback (text k : string) (w : world) :
  In k persona_keys ->
  PyStr.truthy api_key = false ->
  exists p first_priority,
    In (k, p) USER_PERSONAS /\
    nth_error (priorities p) 0 = Some first_priority /\
    generate text k w = (Return (Some (fallback_text p first_priority)), w) /\
    PyStr.contains (name p) (fallback_text p first_priority) = true /\
    PyStr.contains first_priority (fallback_text p first_priority) = true.
Proof.
  intros Hk Hkey.
  destruct (generate_cases text k Hk) as (p & d & p0 & p1 & rest & Hp & _ & Hpr & Hg).
  specialize (Hg w). rewrite Hkey in Hg. exists p, p0. repeat split; auto.
  - rewrite Hpr. reflexivity.
  - unfold fallback_text. apply contains_infix.
  - apply contains_iff.
    exists ("**" ++ name p ++ " Analysis:** As a " ++ PyStr.lower (name p) ++
            ", I would analyze this focusing on "), fallback_tail.
    unfold fallback_text. now rewrite !str_app_assoc.
Qed.

(** C5.  For a key outside the registry the generator raises
    [KeyError] (the registry's unknown-persona failure) to its caller:
    the lookup precedes the [try], so the failure is not turned into a
    returned string, and nothing else happens. *)
Theorem generate_ai_response_unknown_persona (text k : string) (w : world) :
  ~ In k persona_keys ->
  generate text k w = (Raise (KeyError k), w).
Proof.
  intros Hk. unfold generate_ai_response, bind.
  now rewrite (dict_get_missing USER_PERSONAS k w Hk).
Qed.

(** Every persona of the registry has three priority topics. *)
Lemma registry_three_priorities (k : string) (p : persona) :
  In (k, p) USER_PERSONAS -> exists a b c, priorities p = [a; b; c].
Proof.
  unfold USER_PERSONAS. intros Hp.
  repeat (destruct Hp as [Hp|Hp];
          [injection Hp as _ <-; do 3 eexists; reflexivity|]).
  destruct Hp.
Qed.

(** C6.  With a credential configured, the generator called on a
    registry key sends exactly one request: the fixed model, a system
    message followed by a user message, temperature 0.3 and at most
    1000 output tokens.  The system message is the persona's role
    directive, then the fixed instruction, then the persona's three
    priority topics in their order with a comma and a space between them;
    the user message is the submitted text.  The request is the same
    whatever the message log holds. *)
Theorem generate_ai_response_request (text k : string) (w : world) :
  In k persona_keys ->
  PyStr.truthy api_key = true ->
  exists p directive topic1 topic2 topic3 result w',
    In (k, p) USER_PERSONAS /\ In (k, directive) prompts /\
    priorities p = [topic1; topic2; topic3] /\
    generate text k w = (Return result, w') /\
    session w' = session w /\
    api_log w' =
      (api_log w ++
       [ {| model := "mistralai/mixtral-8x7b-instruct";
            req_messages :=
              [ {| msg_role := system;
                   content :=
                     Some (directive ++
                           String "010" (String "010"
                             "Always provide specific numbers, metrics, and data-driven insights. Use the persona's focus areas: ") ++
                           topic1 ++ ", " ++ topic2 ++ ", " ++ topic3)%string |};
                {| msg_role := user; content := Some text |} ];
            temperature := 3 # 10;
            max_tokens := 1000 |} ])%list.
Proof.
  intros Hk Hkey.
  destruct (generate_cases text k Hk) as (p & d & p0 & p1 & rest & Hp & Hd & _ & Hg).
  destruct (registry_three_priorities k p Hp) as (a & b & c & Hpr).
  specialize (Hg w). rewrite Hkey in Hg. cbv zeta in Hg. rewrite Hg.
  exists p, d, a, b, c.
  assert (Hreq : completion_request (system_prompt_of d p) text =
                 {| model := "mistralai/mixtral-8x7b-instruct";
                    req_messages :=
                      [ {| msg_role := system;
                           content :=
                             Some (d ++
                                   String "010" (String "010"
                                     "Always provide specific numbers, metrics, and data-driven insights. Use the persona's focus areas: ") ++
                                   a ++ ", " ++ b ++ ", " ++ c) |};
                        {| msg_role := user; content := Some text |} ];
                    temperature := 3 # 10;
                    max_tokens := 1000 |}).
  { unfold completion_request, system_prompt_of. rewrite Hpr. reflexivity. }
  rewrite <- Hreq.
  assert (Hrun : exists result,
            (match service (api_log w) (completion_request (system_prompt_of d p) text) with
             | Return resp =>
                 match choices resp with
                 | c0 :: _ =>
                     (Return c0,
                      {| session := session w; ui := ui w;
                         api_log := api_log w ++
                                    [completion_request (system_prompt_of d p) text] |})
                 | [] =>
                     (Return (Some (error_text py_repr IndexError)),
                      {| session := session w; ui := ui w;
                         api_log := api_log w ++
                                    [completion_request (system_prompt_of d p) text] |})
                 end
             | Raise e =>
                 (Return (Some (error_text py_repr e)),
                  {| session := session w; ui := ui w;
                     api_log := api_log w ++
                                [completion_request (system_prompt_of d p) text] |})
             end) =
            (Return result,
             {| session := session w; ui := ui w;
                api_log := api_log w ++
                           [completion_request (system_prompt_of d p) text] |})).
  { destruct (service (api_log w) _) as [resp|e];
      [destruct (choices resp)|]; eexists; reflexivity. }
  destruct Hrun as (result & Hrun). rewrite Hrun.
  exists result. eexists.
  split; [exact Hp|]. split; [exact Hd|]. split; [exact Hpr|].
  split; [reflexivity|]. split; reflexivity.
Qed.

(** ** The content providers *)

(** A call into the plotting library never touches the world. *)
Lemma plotly_world {A} (c : plotly_call) (a : A) (w : world) :
  snd (plotly plotly_raises c a w) = w.
Proof. unfold plotly. destruct (plotly_raises c); reflexivity. Qed.

Lemma bind_world {A B} (m : M A) (k : A -> M B) :
  (forall w, snd (m w) = w) -> (forall a w, snd (k a w) = w) ->
  forall w, snd (bind m k w) = w.
Proof.
  intros Hm Hk w. unfold bind. specialize (Hm w).
  destruct (m w) as [[a|e] w1]; simpl in Hm; subst; [apply Hk | reflexivity].
Qed.

Ltac plotly_frame :=
  repeat first
    [ apply plotly_world
    | apply bind_world; [|intros ? ?]
    | intros ? ].

Lemma chart_of_world (k : string) (w : world) :
  snd (chart_of plotly_raises k w) = w.
Proof.
  unfold chart_of.
  repeat match goal with |- context [if ?b then _ else _] => destruct b end;
    unfold sales_funnel, market_radar, financial_bars, strategy_waterfall,
           product_scatter, go_trace, go_Figure, add_trace, update_layout;
    revert w; plotly_frame.
Qed.

(** What a call into the plotting library does is the same in every world. *)
Lemma chart_of_outcome (k : string) (w1 w2 : world) :
  fst (chart_of plotly_raises k w1) = fst (chart_of plotly_raises k w2).
Proof.
  unfold chart_of.
  repeat match goal with |- context [if ?b then _ else _] => destruct b end;
    unfold sales_funnel, market_radar, financial_bars, strategy_waterfall,
           product_scatter, go_trace, go_Figure, add_trace, update_layout,
           plotly, bind, ret, raise;
    repeat match goal with
           | |- context [plotly_raises ?c] => destruct (plotly_raises c)
           end; reflexivity.
Qed.

(** Every table of the script has columns of one length. *)
Lemma create_persona_data_returns (k : string) (w : world) :
  table k w = (Return {| columns := table_of k |}, w).
Proof.
  unfold create_persona_data, table_of.
  repeat match goal with |- context [if ?b then _ else _] => destruct b end;
    reflexivity.
Qed.

(** The chart provider in terms of what the construction does. *)
Lemma create_persona_chart_result (k : string) (w : world) :
  chart k w =
    if PLOTLY_AVAILABLE then
      match fst (chart_of plotly_raises k w) with
      | Return fig => (Return (Some fig), w)
      | Raise e =>
          (Return None,
           {| session := session w;
              ui := ui w ++ [st_text "error" ("Chart error: " ++ exn_str py_repr e)];
              api_log := api_log w |})
      end
    else (Return None, w).
Proof.
  unfold create_persona_chart. destruct PLOTLY_AVAILABLE; [|reflexivity].
  cbn [negb]. unfold try_except, bind.
  pose proof (chart_of_world k w) as Hw.
  destruct (chart_of plotly_raises k w) as [[fig|e] w1]; simpl in Hw; subst w1;
    reflexivity.
Qed.

Lemma create_persona_chart_spec (k : string) (w : world) :
  exists r w',
    chart k w = (Return r, w') /\
    session w' = session w /\ api_log w' = api_log w /\
    forall w2, fst (chart k w2) = Return r.
Proof.
  pose proof (create_persona_chart_result k w) as H.
  assert (Hind : forall w2, fst (chart k w2) = fst (chart k w)).
  { intros w2. rewrite !create_persona_chart_result.
    rewrite (chart_of_outcome k w2 w).
    destruct PLOTLY_AVAILABLE; [|reflexivity].
    destruct (fst (chart_of plotly_raises k w)); reflexivity. }
  destruct PLOTLY_AVAILABLE.
  - destruct (fst (chart_of plotly_raises k w)) as [fig|e];
      do 2 eexists; (split; [exact H|]);
      (split; [reflexivity|]); (split; [reflexivity|]);
      intros w2; rewrite Hind, H; reflexivity.
  - do 2 eexists; (split; [exact H|]);
      (split; [reflexivity|]); (split; [reflexivity|]).
    intros w2. rewrite Hind, H. reflexivity.
Qed.

(** C7.  The chart provider returns for every key and raises nothing.
    Without the plotting library it returns [None] and does nothing.
    When a call of the chart construction raises, it returns [None] too,
    after reporting the error to the page.  Neither the session state
    nor the request log changes. *)
Theorem create_persona_chart_never_raises (k : string) (w : world) :
  exists r w',
    chart k w = (Return r, w') /\
    session w' = session w /\ api_log w' = api_log w /\
    (PLOTLY_AVAILABLE = false -> r = None /\ w' = w) /\
    (forall e, fst (chart_of plotly_raises k w) = Raise e -> r = None) /\
    (forall fig, PLOTLY_AVAILABLE = true ->
                 fst (chart_of plotly_raises k w) = Return fig ->
                 r = Some fig /\ w' = w).
Proof.
  rewrite create_persona_chart_result.
  destruct PLOTLY_AVAILABLE.
  - destruct (fst (chart_of plotly_raises k w)) as [fig|e];
      do 2 eexists; (split; [reflexivity|]);
      (split; [reflexivity|]); (split; [reflexivity|]);
      (split; [discriminate|]); split.
    + discriminate.
    + intros fig' _ H. now injection H as ->.
    + reflexivity.
    + discriminate.
  - do 2 eexists; (split; [reflexivity|]);
      (split; [reflexivity|]); (split; [reflexivity|]);
      (split; [now split|]); split.
    + reflexivity.
    + discriminate.
Qed.

(** C8.  The two content providers are functions of the persona key
    alone: called twice in a row, in any two worlds, they yield the same
    table and the same chart; the table is the fixed table of the key;
    the calls change neither the session state nor the request log. *)
Theorem content_providers_pure (k : string) (w1 w2 : world) :
  exists df c w1' w2',
    providers_twice py_repr PLOTLY_AVAILABLE plotly_raises k w1 = (Return (df, c, df, c), w1') /\
    providers_twice py_repr PLOTLY_AVAILABLE plotly_raises k w2 = (Return (df, c, df, c), w2') /\
    df = {| columns := table_of k |} /\
    session w1' = session w1 /\ api_log w1' = api_log w1 /\
    session w2' = session w2 /\ api_log w2' = api_log w2.
Proof.
  assert (Hrun : forall w r, (forall w0, fst (chart k w0) = Return r) ->
            exists w', providers_twice py_repr PLOTLY_AVAILABLE plotly_raises k w =
                         (Return ({| columns := table_of k |}, r,
                                  {| columns := table_of k |}, r), w') /\
                       session w' = session w /\ api_log w' = api_log w).
  { intros w r Hr. unfold providers_twice, bind.
    rewrite create_persona_data_returns.
    destruct (create_persona_chart_spec k w) as (ra & wa & Ha & Hsa & Hla & _).
    pose proof (Hr w) as Hra. rewrite Ha in Hra. simpl in Hra.
    injection Hra as ->. rewrite Ha.
    rewrite create_persona_data_returns.
    destruct (create_persona_chart_spec k wa) as (rb & wb & Hb & Hsb & Hlb & _).
    pose proof (Hr wa) as Hrb. rewrite Hb in Hrb. simpl in Hrb.
    injection Hrb as ->. rewrite Hb.
    exists wb. repeat split; congruence. }
  destruct (create_persona_chart_spec k w1) as (r & wa & _ & _ & _ & Hr).
  destruct (Hrun w1 r Hr) as (w1' & H1 & Hs1 & Hl1).
  destruct (Hrun w2 r Hr) as (w2' & H2 & Hs2 & Hl2).
  exists {| columns := table_of k |}, r, w1', w2'. repeat split; assumption.
Qed.

Lemma unknown_key_branches (k : string) :
  ~ In k persona_keys ->
  String.eqb k "sales_executive" = false /\
  String.eqb k "market_researcher" = false /\
  String.eqb k "financial_analyst" = false /\
  String.eqb k "strategic_planner" = false.
Proof.
  intros Hk. repeat split; apply String.eqb_neq; intros ->; apply Hk;
    simpl; auto 10.
Qed.

(** C10.  Both content providers fall through to their last branch on
    a key outside the registry: the table provider returns the product
    manager's table, and the chart provider behaves as on
    [product_manager], returning the product manager's chart whenever
    the plotting library is available and builds it. *)
Theorem unknown_key_gets_product_manager_content (k : string) (w : world) :
  ~ In k persona_keys ->
  table k w =
    (Return {| columns :=
                 [ ("Feature", ["AI Integration"; "Mobile App"; "API Access"; "Analytics"]);
                   ("User Impact", ["High"; "Medium"; "Low"; "High"]);
                   ("Development Effort", ["High"; "Medium"; "Low"; "Medium"]);
                   ("Priority", ["P0"; "P1"; "P2"; "P0"]) ] |}, w) /\
  table k w = table "product_manager" w /\
  chart k w = chart "product_manager" w /\
  (forall fig, PLOTLY_AVAILABLE = true ->
               fst (product_scatter plotly_raises w) = Return fig ->
               chart k w = (Return (Some fig), w)).
Proof.
  intros Hk.
  destruct (unknown_key_branches k Hk) as (H1 & H2 & H3 & H4).
  assert (Hc : chart_of plotly_raises k = product_scatter plotly_raises).
  { unfold chart_of. now rewrite H1, H2, H3, H4. }
  assert (Ht : table_of k = table_of "product_manager").
  { unfold table_of. now rewrite H1, H2, H3, H4. }
  repeat split.
  - rewrite create_persona_data_returns, Ht. reflexivity.
  - rewrite !create_persona_data_returns, Ht. reflexivity.
  - rewrite !create_persona_chart_result, Hc. reflexivity.
  - intros fig Hp Hfig. rewrite create_persona_chart_result, Hc, Hp, Hfig.
    reflexivity.
Qed.

(** ** Persona switches *)

Lemma switch_persona_same (w : world) :
  switch_persona (current_persona (session w)) w = (Return tt, w).
Proof.
  unfold switch_persona, bind, get_session. now rewrite String.eqb_refl.
Qed.

Lemma switch_persona_other (k : string) (p : persona) (w : world) :
  k <> current_persona (session w) ->
  In (k, p) USER_PERSONAS ->
  switch_persona k w =
    (Return tt,
     {| session := {| messages := messages (session w) ++ [announcement p];
                      current_persona := k |};
        ui := ui w; api_log := api_log w |}).
Proof.
  intros Hne Hp.
  assert (Hk : In k persona_keys) by (apply (in_map fst) in Hp; exact Hp).
  destruct (registry_entry k Hk) as (q & _ & _ & _ & _ & Hq & _ & _ & Hget & _).
  rewrite (registry_functional k p q Hp Hq).
  apply String.eqb_neq in Hne.
  unfold switch_persona, bind, get_session. rewrite Hne. cbn [negb].
  unfold set_current_persona, bind, get_session, put_session.
  rewrite Hget. reflexivity.
Qed.

Lemma effective_switches_same (cur : string) (keys : list string) :
  effective_switches cur (cur :: keys) = effective_switches cur keys.
Proof. simpl. now rewrite String.eqb_refl. Qed.

Lemma effective_switches_other (cur k : string) (keys : list string) :
  k <> cur ->
  effective_switches cur (k :: keys) = k :: effective_switches k keys.
Proof. intros H. simpl. apply String.eqb_neq in H. now rewrite H. Qed.

Lemma last_cons (k d : string) (keys : list string) :
  last (k :: keys) d = last keys k.
Proof.
  revert k d. induction keys as [|k' keys IH]; intros k d; [reflexivity|].
  change (last (k :: k' :: keys) d) with (last (k' :: keys) d).
  now rewrite (IH k' d), (IH k' k).
Qed.

Lemma switch_all_spec (keys : list string) :
  forall w,
    In (current_persona (session w)) persona_keys ->
    Forall (fun k => In k persona_keys) keys ->
    exists anns,
      switch_all keys w =
        (Return tt,
         {| session := {| messages := messages (session w) ++ anns;
                          current_persona := last keys (current_persona (session w)) |};
            ui := ui w; api_log := api_log w |}) /\
      Forall2 announces (effective_switches (current_persona (session w)) keys) anns.
Proof.
  induction keys as [|k keys IH]; intros w Hcur Hkeys.
  - exists []. split; [|constructor].
    simpl. unfold ret. rewrite app_nil_r. now destruct w as [[? ?] ? ?].
  - inversion Hkeys as [|? ? Hk Hrest]; subst.
    destruct (string_dec k (current_persona (session w))) as [->|Hne].
    + destruct (IH w Hcur Hrest) as (anns & Hrun & Hanns).
      exists anns. rewrite effective_switches_same. split; [|exact Hanns].
      cbn [switch_all]. unfold bind at 1. rewrite switch_persona_same, Hrun.
      now rewrite last_cons.
    + destruct (registry_entry k Hk) as (p & _ & _ & _ & _ & Hp & _).
      set (w1 := {| session := {| messages := messages (session w) ++ [announcement p];
                                  current_persona := k |};
                    ui := ui w; api_log := api_log w |}).
      destruct (IH w1 Hk Hrest) as (anns & Hrun & Hanns).
      exists (announcement p :: anns).
      rewrite (effective_switches_other _ _ _ Hne). split.
      * cbn [switch_all]. unfold bind at 1.
        rewrite (switch_persona_other k p w Hne Hp). fold w1. rewrite Hrun.
        cbn [session messages current_persona ui api_log w1].
        rewrite <- app_assoc, last_cons. reflexivity.
      * constructor; [exists p; auto | exact Hanns].
Qed.

Lemma last_in_keys (keys : list string) (cur : string) :
  In cur persona_keys ->
  Forall (fun k => In k persona_keys) keys ->
  In (last keys cur) persona_keys.
Proof.
  intros Hcur Hkeys. revert cur Hcur.
  induction Hkeys as [|k keys Hk _ IH]; intros cur Hcur; [exact Hcur|].
  destruct keys as [|k' keys]; [exact Hk|]. apply (IH cur Hcur).
Qed.

(** C4.  From a state whose active key is a registry key, and for
    every sequence of selector values, which are registry keys: selecting
    the active key changes nothing; selecting another key makes it the
    active key and appends its announcement, one assistant message; so a
    sequence of selections appends to the log, in order, one announcement
    for each selection that differs from the key active when it arrives,
    and nothing else, and the active key stays a registry key. *)
Theorem switch_sequence (keys : list string) (w : world) :
  In (current_persona (session w)) persona_keys ->
  Forall (fun k => In k persona_keys) keys ->
  (switch_persona (current_persona (session w)) w = (Return tt, w)) /\
  (forall k, In k persona_keys -> k <> current_persona (session w) ->
     exists p, In (k, p) USER_PERSONAS /\
       msg_role (announcement p) = assistant /\
       switch_persona k w =
         (Return tt,
          {| session := {| messages := messages (session w) ++ [announcement p];
                           current_persona := k |};
             ui := ui w; api_log := api_log w |})) /\
  exists anns w',
    switch_all keys w = (Return tt, w') /\
    messages (session w') = (messages (session w) ++ anns)%list /\
    Forall2 announces (effective_switches (current_persona (session w)) keys) anns /\
    length (messages (session w')) =
      (length (messages (session w)) +
       length (effective_switches (current_persona (session w)) keys))%nat /\
    current_persona (session w') = last keys (current_persona (session w)) /\
    In (current_persona (session w')) persona_keys /\
    ui w' = ui w /\ api_log w' = api_log w.
Proof.
  intros Hcur Hkeys. split; [apply switch_persona_same|]. split.
  - intros k Hk Hne.
    destruct (registry_entry k Hk) as (p & _ & _ & _ & _ & Hp & _).
    exists p. split; [exact Hp|]. split; [reflexivity|].
    now apply switch_persona_other.
  - destruct (switch_all_spec keys w Hcur Hkeys) as (anns & Hrun & Hanns).
    do 2 eexists. split; [exact Hrun|].
    cbn [session messages current_persona ui api_log].
    repeat split; auto.
    + rewrite length_app. f_equal. symmetry.
      apply (Forall2_length Hanns).
    + now apply last_in_keys.
Qed.

(** ** Charts drawn in a run *)

Lemma chart_drawn_snoc (fig : Figure) (evs : list ui_event) (ev : ui_event) :
  chart_drawn fig (evs ++ [ev]) =
    match ev with
    | run_start => false
    | st_plotly_chart f => if Figure_eq_dec f fig then true else chart_drawn fig evs
    | _ => chart_drawn fig evs
    end.
Proof. unfold chart_drawn. rewrite fold_left_app. reflexivity. Qed.

Lemma chart_drawn_plain (fig : Figure) (more : list ui_event) :
  forallb plain more = true ->
  forall evs, chart_drawn fig (evs ++ more) = chart_drawn fig evs.
Proof.
  induction more as [|ev more IH]; intros Hplain evs.
  - now rewrite app_nil_r.
  - cbn [forallb] in Hplain. apply andb_prop in Hplain as [Hev Hmore].
    change (ev :: more) with ([ev] ++ more)%list. rewrite app_assoc, (IH Hmore).
    rewrite chart_drawn_snoc. now destruct ev.
Qed.

Lemma chart_drawn_same (fig : Figure) (evs : list ui_event) :
  chart_drawn fig (evs ++ [st_plotly_chart fig]) = true.
Proof.
  rewrite chart_drawn_snoc. now destruct (Figure_eq_dec fig fig).
Qed.

Lemma transcript_plain (ms : list message) :
  forallb plain (flat_map (fun m => [st_chat_message (msg_role m);
                                     st_markdown (content m)]) ms) = true.
Proof. induction ms as [|m ms IH]; [reflexivity | exact IH]. Qed.

(** ** Chat input *)

(** On a registry key the generator returns, touches neither the
    session nor the page, sends one request when a credential is
    configured and none otherwise, and its result depends on the world
    through the requests sent so far only. *)
Lemma generate_effect (text k : string) :
  In k persona_keys ->
  exists p directive,
    In (k, p) USER_PERSONAS /\ In (k, directive) prompts /\
    forall w, exists response,
      generate text k w =
        (Return response,
         {| session := session w; ui := ui w;
            api_log := api_log w ++
                       (if PyStr.truthy api_key
                        then [completion_request (system_prompt_of directive p) text]
                        else []) |}) /\
      forall w2, api_log w2 = api_log w ->
                 fst (generate text k w2) = Return response.
Proof.
  intros Hk.
  destruct (generate_cases text k Hk) as (p & d & p0 & p1 & rest & Hp & Hd & _ & Hg).
  exists p, d. split; [exact Hp|]. split; [exact Hd|]. intros w.
  destruct (PyStr.truthy api_key) eqn:Hkey.
  - cbv zeta in Hg.
    destruct (service (api_log w) (completion_request (system_prompt_of d p) text))
      as [resp|e] eqn:Hs; [destruct (choices resp) as [|c others] eqn:Hc|];
      eexists; (split; [rewrite Hg, Hs, ?Hc; reflexivity|]);
      intros w2 Hlog; rewrite Hg, Hlog, Hs, ?Hc; reflexivity.
  - eexists. split.
    + rewrite Hg, app_nil_r. now destruct w.
    + intros w2 _. now rewrite Hg.
Qed.

(** The chart and table shown with a response: the chart call raises
    when the chart is on the page of the run already. *)
Lemma show_analytics_result (w : world) :
  show_analytics py_repr duplicate_id_message PLOTLY_AVAILABLE plotly_raises w =
    if PLOTLY_AVAILABLE then
      match fst (chart_of plotly_raises (current_persona (session w)) w) with
      | Return fig =>
          if chart_drawn fig (ui w) then (Raise duplicate_id, w)
          else
            (Return tt,
             {| session := session w;
                ui := ui w ++
                      [st_plotly_chart fig;
                       st_dataframe
                         {| columns := table_of (current_persona (session w)) |}];
                api_log := api_log w |})
      | Raise e =>
          (Return tt,
           {| session := session w;
              ui := ui w ++
                    [st_text "error" ("Chart error: " ++ exn_str py_repr e);
                     st_dataframe
                       {| columns := table_of (current_persona (session w)) |}];
              api_log := api_log w |})
      end
    else
      (Return tt,
       {| session := session w;
          ui := ui w ++
                [st_dataframe {| columns := table_of (current_persona (session w)) |}];
          api_log := api_log w |}).
Proof.
  pose proof (create_persona_chart_result (current_persona (session w)) w) as Hc.
  unfold show_analytics, bind, get_session.
  destruct PLOTLY_AVAILABLE.
  - destruct (fst (chart_of plotly_raises (current_persona (session w)) w))
      as [fig|e]; rewrite Hc.
    + unfold plotly_chart. destruct (chart_drawn fig (ui w)); [reflexivity|].
      unfold emit. cbn [session ui api_log]. rewrite create_persona_data_returns.
      cbn [session ui api_log]. now rewrite <- app_assoc.
    + unfold ret, emit. rewrite create_persona_data_returns.
      cbn [session ui api_log]. now rewrite <- app_assoc.
  - unfold ret, emit. rewrite create_persona_data_returns. reflexivity.
Qed.

(** The chat input handler on a submitted text: it returns with the
    user message and the response in the log, or, when it draws again a
    chart of the run, raises with the user message alone in the log. *)
Lemma submit_run (current : persona) (text : string) (w : world) :
  In (current_persona (session w)) persona_keys ->
  PyStr.truthy text = true ->
  exists response reqs page o w',
    handle_submit current (Some text) w = (o, w') /\
    (forall w2, api_log w2 = api_log w ->
       fst (generate text (current_persona (session w)) w2) = Return response) /\
    (exists system_prompt,
       reqs = if PyStr.truthy api_key
              then [completion_request system_prompt text] else []) /\
    api_log w' = (api_log w ++ reqs)%list /\
    ui w' = (ui w ++ page)%list /\
    current_persona (session w') = current_persona (session w) /\
    ((o = Return tt /\
      messages (session w') =
        (messages (session w) ++
         [ {| msg_role := user; content := Some text |};
           {| msg_role := assistant; content := response |} ])%list /\
      ~ redraws_chart PLOTLY_AVAILABLE plotly_raises
          (current_persona (session w)) text w) \/
     (o = Raise duplicate_id /\
      messages (session w') =
        (messages (session w) ++
         [ {| msg_role := user; content := Some text |} ])%list /\
      redraws_chart PLOTLY_AVAILABLE plotly_raises
        (current_persona (session w)) text w)).
Proof.
  intros Hcur Htext.
  set (cur := current_persona (session w)) in *.
  destruct (generate_effect text cur Hcur) as (p & d & _ & _ & Hgen).
  set (said := [ st_chat_message user; st_markdown (Some text);
                 st_chat_message assistant;
                 st_spinner ("🔍 " ++ icon current ++ " Analyzing...") ]).
  set (w1 := {| session := {| messages := messages (session w) ++
                                          [ {| msg_role := user; content := Some text |} ];
                              current_persona := cur |};
                ui := ui w ++ said;
                api_log := api_log w |}).
  destruct (Hgen w1) as (response & Hrun & Hind).
  set (reqs := if PyStr.truthy api_key
               then [completion_request (system_prompt_of d p) text] else []) in *.
  set (w2 := {| session := session w1;
                ui := ui w ++ said ++ [st_markdown response];
                api_log := api_log w ++ reqs |}).
  assert (Hhead :
    handle_submit current (Some text) w =
      bind (if mentions_keyword text
            then show_analytics py_repr duplicate_id_message PLOTLY_AVAILABLE plotly_raises
            else ret tt)
           (fun _ => messages_append
                       {| msg_role := assistant; content := response |}) w2).
  { unfold submit. rewrite Htext.
    unfold bind at 1. unfold messages_append at 1, bind at 1, get_session, put_session.
    do 4 (unfold bind at 1; unfold emit at 1; cbn [session ui api_log]).
    unfold bind at 1, get_session. cbn [session current_persona].
    unfold bind at 1. rewrite <- !app_assoc. cbn [app]. fold cur. fold said. fold w1.
    rewrite Hrun.
    unfold bind at 1, emit at 1. cbn [session ui api_log w1].
    now rewrite <- app_assoc. }
  assert (Hdrawn : forall fig, chart_drawn fig (ui w2) = chart_drawn fig (ui w)).
  { intros fig. cbn [ui w2]. now apply chart_drawn_plain. }
  assert (Hchart : fst (chart_of plotly_raises cur w2) = fst (chart_of plotly_raises cur w))
    by apply chart_of_outcome.
  pose proof (show_analytics_result w2) as Hshow.
  cbn [session current_persona w2 w1] in Hshow. rewrite Hchart in Hshow.
  exists response, reqs.
  assert (Hreturn : forall extra,
            (if mentions_keyword text
             then show_analytics py_repr duplicate_id_message PLOTLY_AVAILABLE plotly_raises
             else ret tt) w2 =
              (Return tt, {| session := session w1; ui := ui w2 ++ extra;
                             api_log := api_log w ++ reqs |}) ->
            ~ redraws_chart PLOTLY_AVAILABLE plotly_raises cur text w ->
            exists page o w',
              handle_submit current (Some text) w = (o, w') /\
              (forall w0, api_log w0 = api_log w ->
                 fst (generate text cur w0) = Return response) /\
              (exists system_prompt,
                 reqs = if PyStr.truthy api_key
                        then [completion_request system_prompt text] else []) /\
              api_log w' = (api_log w ++ reqs)%list /\
              ui w' = (ui w ++ page)%list /\
              current_persona (session w') = cur /\
              ((o = Return tt /\
                messages (session w') =
                  (messages (session w) ++
                   [ {| msg_role := user; content := Some text |};
                     {| msg_role := assistant; content := response |} ])%list /\
                ~ redraws_chart PLOTLY_AVAILABLE plotly_raises cur text w) \/
               (o = Raise duplicate_id /\
                messages (session w') =
                  (messages (session w) ++
                   [ {| msg_role := user; content := Some text |} ])%list /\
                redraws_chart PLOTLY_AVAILABLE plotly_raises cur text w))).
  { intros extra Hextra Hno.
    exists (said ++ [st_markdown response] ++ extra)%list, (Return tt). eexists.
    split.
    { rewrite Hhead. unfold bind. rewrite Hextra.
      unfold messages_append, bind, get_session, put_session.
      cbn [session messages current_persona ui api_log w1 w2]. reflexivity. }
    cbn [session messages current_persona ui api_log].
    split; [exact Hind|]. split; [now exists (system_prompt_of d p)|].
    split; [reflexivity|]. split; [now rewrite <- !app_assoc|].
    split; [reflexivity|]. left.
    split; [reflexivity|]. split; [now rewrite <- app_assoc | exact Hno]. }
  destruct (mentions_keyword text) eqn:Hm.
  2:{ apply (Hreturn []).
      - unfold ret. rewrite app_nil_r. reflexivity.
      - intros (Hm' & _). congruence. }
  destruct PLOTLY_AVAILABLE eqn:Hp.
  2:{ apply (Hreturn [st_dataframe {| columns := table_of cur |}]).
      - exact Hshow.
      - intros (_ & Hp' & _). congruence. }
  destruct (fst (chart_of plotly_raises cur w)) as [fig|e] eqn:Hfig.
  2:{ apply (Hreturn [st_text "error" ("Chart error: " ++ exn_str py_repr e);
                      st_dataframe {| columns := table_of cur |}]).
      - exact Hshow.
      - intros (_ & _ & fig & Hfig' & _). congruence. }
  rewrite Hdrawn in Hshow.
  destruct (chart_drawn fig (ui w)) eqn:Hd.
  - exists (said ++ [st_markdown response])%list, (Raise duplicate_id), w2.
    split; [rewrite Hhead; unfold bind; now rewrite Hshow|].
    cbn [session messages current_persona ui api_log w1 w2].
    split; [exact Hind|]. split; [now exists (system_prompt_of d p)|].
    split; [reflexivity|]. split; [reflexivity|]. split; [reflexivity|].
    right. split; [reflexivity|]. split; [reflexivity|].
    split; [exact Hm|]. split; [reflexivity|]. exists fig. now split.
  - apply (Hreturn [st_plotly_chart fig; st_dataframe {| columns := table_of cur |}]).
    + exact Hshow.
    + intros (_ & _ & fig' & Hfig' & Hd'). congruence.
Qed.

Lemma mentions_keyword_iff (text : string) :
  mentions_keyword text = true <->
  exists keyword pre post,
    In keyword keywords /\ PyStr.lower text = pre ++ keyword ++ post.
Proof.
  unfold mentions_keyword. rewrite existsb_exists. split.
  - intros (k & Hk & Hc). apply contains_iff in Hc as (pre & post & Hc).
    now exists k, pre, post.
  - intros (k & pre & post & Hk & Hc). exists k. split; [exact Hk|].
    apply contains_iff. now exists pre, post.
Qed.

(** * Further properties *)

(** ** The response generator with a credential *)

(** X1.  With a credential configured and a registry key, the
    generator sends one request; when that call raises, whatever the
    exception, the result is the error text followed by the exception's
    message, the request is not repeated, and the session state and the
    page are untouched. *)
Theorem generate_ai_response_service_failure (text k : string) (w : world) :
  In k persona_keys ->
  PyStr.truthy api_key = true ->
  exists req,
    (exists system_prompt, req = completion_request system_prompt text) /\
    forall e,
      service (api_log w) req = Raise e ->
      generate text k w =
        (Return (Some ("**Analysis:** I encountered an error processing your request. Error: "
                       ++ exn_str py_repr e)),
         {| session := session w; ui := ui w; api_log := api_log w ++ [req] |}).
Proof.
  intros Hk Hkey.
  destruct (generate_cases text k Hk) as (p & d & p0 & p1 & rest & _ & _ & _ & Hg).
  exists (completion_request (system_prompt_of d p) text).
  split; [now exists (system_prompt_of d p)|].
  intros e Hfail.
  specialize (Hg w). rewrite Hkey in Hg. cbv zeta in Hg. rewrite Hfail in Hg.
  exact Hg.
Qed.


(** ** Shape of the charts and tables *)

Ltac run_plotly :=
  unfold chart_of, sales_funnel, market_radar, financial_bars,
         strategy_waterfall, product_scatter, go_trace, go_Figure, add_trace,
         update_layout, plotly, bind, ret, raise.

Lemma chart_of_shape (k : string) (w : world) (fig : Figure) :
  fst (chart_of plotly_raises k w) = Return fig ->
  height (fig_layout fig) = Some 400%Z /\
  (exists t, title (fig_layout fig) = Some t /\ t <> "") /\
  (1 <= length (fig_data fig) <= 2)%nat.
Proof.
  run_plotly.
  repeat match goal with |- context [if ?b then _ else _] => destruct b end;
    repeat match goal with
           | |- context [plotly_raises ?c] => destruct (plotly_raises c)
           end;
    cbn [fst]; intros H; try discriminate H; injection H as <-;
    cbn; (split; [reflexivity|]); (split; [|split; repeat constructor]);
    eexists; (split; [reflexivity | discriminate]).
Qed.

(** X3.  Whatever the key and whichever plotting calls fail, a chart
    that the chart provider returns has height 400, a title that is not
    empty and one or two traces, and returning it changed nothing: a
    figure is never handed out half built. *)
Theorem create_persona_chart_shape (k : string) (w w' : world) (fig : Figure) :
  chart k w = (Return (Some fig), w') ->
  w' = w /\
  height (fig_layout fig) = Some 400%Z /\
  (exists t, title (fig_layout fig) = Some t /\ t <> "") /\
  (1 <= length (fig_data fig) <= 2)%nat.
Proof.
  rewrite create_persona_chart_result. intros H.
  destruct PLOTLY_AVAILABLE; [|discriminate H].
  destruct (fst (chart_of plotly_raises k w)) as [fig'|e] eqn:Hc;
    [|discriminate H].
  injection H as -> <-. split; [reflexivity|]. now apply (chart_of_shape k w).
Qed.

(** X4.  When plotting is available and no plotting call raises, the
    chart provider returns a chart for every key, registry key or not,
    and writes nothing to the page. *)
Theorem create_persona_chart_total (k : string) (w : world) :
  PLOTLY_AVAILABLE = true ->
  (forall c, plotly_raises c = None) ->
  exists fig, chart k w = (Return (Some fig), w).
Proof.
  intros Hp Hworks. rewrite create_persona_chart_result, Hp.
  assert (Hc : exists fig, fst (chart_of plotly_raises k w) = Return fig).
  { run_plotly.
    repeat match goal with |- context [if ?b then _ else _] => destruct b end;
      rewrite !Hworks; eexists; reflexivity. }
  destruct Hc as (fig & Hc). exists fig. now rewrite Hc.
Qed.

(** X5.  For every key, registry key or not, the table provider returns
    a rectangular table: three or four columns with distinct names, all
    of the same length, three or four rows; so building the data frame
    never fails on ragged columns. *)
Theorem create_persona_data_rectangular (k : string) (w : world) :
  exists cols rows,
    table k w = (Return {| columns := cols |}, w) /\
    Forall (fun c => length (snd c) = rows) cols /\
    (3 <= rows <= 4)%nat /\
    (3 <= length cols <= 4)%nat /\
    NoDup (map fst cols).
Proof.
  rewrite create_persona_data_returns. unfold table_of.
  repeat match goal with |- context [if ?b then _ else _] => destruct b end;
    do 2 eexists; (split; [reflexivity|]);
    (split; [repeat constructor|]);
    (split; [split; repeat constructor|]);
    (split; [split; repeat constructor|]);
    repeat constructor; cbn; intuition discriminate.
Qed.


(** ** More on persona switches *)

(** X6.  The switch handler assigns the selected key before it looks
    the persona up: on a key outside the registry it raises [KeyError]
    with the active key already changed and no announcement appended. *)
Theorem switch_persona_unknown_key (k : string) (w : world) :
  In (current_persona (session w)) persona_keys ->
  ~ In k persona_keys ->
  switch_persona k w =
    (Raise (KeyError k),
     {| session := {| messages := messages (session w); current_persona := k |};
        ui := ui w; api_log := api_log w |}).
Proof.
  intros Hcur Hk.
  assert (Hne : String.eqb k (current_persona (session w)) = false).
  { apply String.eqb_neq. intros ->. contradiction. }
  unfold switch_persona, bind, get_session. rewrite Hne. cbn [negb].
  unfold set_current_persona, bind, get_session, put_session.
  cbn [session messages ui api_log].
  now rewrite (dict_get_missing USER_PERSONAS k _ Hk).
Qed.

Lemma effective_switches_change (keys : list string) :
  forall cur, changes_each_time cur (effective_switches cur keys).
Proof.
  induction keys as [|k keys IH]; intros cur; simpl; [exact I|].
  destruct (String.eqb_spec k cur) as [_|Hne]; [apply IH|].
  simpl. split; [exact Hne | apply IH].
Qed.

Lemma effective_switches_length (keys : list string) :
  forall cur, (length (effective_switches cur keys) <= length keys)%nat.
Proof.
  induction keys as [|k keys IH]; intros cur; simpl; [constructor|].
  destruct (String.eqb k cur); simpl.
  - apply le_S, IH.
  - apply le_n_S, IH.
Qed.

(** X7.  A sequence of selections never announces the same persona
    twice in a row: each announcement appended is for a key that differs
    from the key announced before it, the first from the key active at
    the start; there is at most one announcement per selection; and
    repeating a selection is the same as making it once. *)
Theorem switch_sequence_no_repeats (keys : list string) (w : world) :
  In (current_persona (session w)) persona_keys ->
  Forall (fun k => In k persona_keys) keys ->
  (exists announced anns w',
     switch_all keys w = (Return tt, w') /\
     messages (session w') = (messages (session w) ++ anns)%list /\
     Forall2 announces announced anns /\
     changes_each_time (current_persona (session w)) announced /\
     (length anns <= length keys)%nat) /\
  (forall k, In k persona_keys -> switch_all [k; k] w = switch_all [k] w).
Proof.
  intros Hcur Hkeys. split.
  - destruct (switch_all_spec keys w Hcur Hkeys) as (anns & Hrun & Hanns).
    exists (effective_switches (current_persona (session w)) keys), anns.
    eexists. split; [exact Hrun|]. cbn [session messages].
    split; [reflexivity|]. split; [exact Hanns|].
    split; [apply effective_switches_change|].
    rewrite <- (Forall2_length Hanns). apply effective_switches_length.
  - intros k Hk. cbn [switch_all]. unfold bind, ret.
    destruct (string_dec k (current_persona (session w))) as [->|Hne].
    + now rewrite !switch_persona_same.
    + destruct (registry_entry k Hk) as (p & _ & _ & _ & _ & Hp & _).
      rewrite (switch_persona_other k p w Hne Hp).
      set (w1 := {| session := {| messages := messages (session w) ++ [announcement p];
                                  current_persona := k |};
                    ui := ui w; api_log := api_log w |}).
      now rewrite (switch_persona_same w1 : switch_persona k w1 = _).
Qed.


(** ** The whole run *)

Lemma for_each_emit_pair {V} (f g : V -> ui_event) (xs : list V) :
  forall w,
    for_each xs (fun x => emit (f x) ;; emit (g x)) w =
      (Return tt,
       {| session := session w;
          ui := ui w ++ flat_map (fun x => [f x; g x]) xs;
          api_log := api_log w |}).
Proof.
  induction xs as [|x xs IH]; intros w; cbn [for_each flat_map].
  - unfold ret. rewrite app_nil_r. now destruct w.
  - unfold bind at 1. unfold bind at 1, emit. cbn [session ui api_log].
    rewrite IH. cbn [session ui api_log]. now rewrite <- !app_assoc.
Qed.

(** The transcript and the panel, when no chart is on the page yet. *)
Lemma main_chat_interface_spec (current : persona) (w : world) :
  (forall fig, chart_drawn fig (ui w) = false) ->
  exists panel,
    main_chat_interface py_repr duplicate_id_message PLOTLY_AVAILABLE plotly_raises
                        current w =
      (Return tt,
       {| session := session w;
          ui := ui w ++
                [st_text "header" (icon current ++ " " ++ name current ++ " Conversation")] ++
                flat_map (fun m => [st_chat_message (msg_role m);
                                    st_markdown (content m)])
                         (messages (session w)) ++
                [st_text "subheader" "📈 Persona-Specific Analytics"] ++
                panel ++
                [st_dataframe {| columns := table_of (current_persona (session w)) |}];
          api_log := api_log w |}) /\
    panel_shows py_repr PLOTLY_AVAILABLE plotly_raises
                (current_persona (session w)) w panel.
Proof.
  intros Hfresh.
  set (k := current_persona (session w)).
  set (events := ([st_text "header" (icon current ++ " " ++ name current ++ " Conversation")] ++
                  flat_map (fun m => [st_chat_message (msg_role m);
                                      st_markdown (content m)])
                           (messages (session w)) ++
                  [st_text "subheader" "📈 Persona-Specific Analytics"])%list).
  set (w1 := {| session := session w; ui := ui w ++ events; api_log := api_log w |}).
  assert (Hplain : forallb plain events = true).
  { unfold events. cbn [app forallb plain andb].
    rewrite forallb_app, transcript_plain. reflexivity. }
  assert (Hfresh1 : forall fig, chart_drawn fig (ui w1) = false).
  { intros fig. cbn [ui w1]. now rewrite chart_drawn_plain. }
  pose proof (create_persona_chart_result k w1) as Hc.
  rewrite (chart_of_outcome k w1 w) in Hc.
  assert (Hrun : forall panel,
            (if PLOTLY_AVAILABLE then
               s <- get_session ;;
               c <- chart (current_persona s) ;;
               match c with
               | Some fig => plotly_chart duplicate_id_message fig
               | None => ret tt
               end
             else emit (st_text "info"
                    "📊 *Install plotly for interactive charts: `pip install plotly`*")) w1 =
            (Return tt, {| session := session w; ui := ui w1 ++ panel;
                           api_log := api_log w |}) ->
            main_chat_interface py_repr duplicate_id_message PLOTLY_AVAILABLE plotly_raises
                                current w =
              (Return tt,
               {| session := session w;
                  ui := ui w ++ events ++ panel ++ [st_dataframe {| columns := table_of k |}];
                  api_log := api_log w |})).
  { intros panel Hpanel. unfold main_chat_interface.
    unfold bind at 1, emit at 1. unfold bind at 1, get_session.
    cbn [session ui api_log]. unfold bind at 1. rewrite for_each_emit_pair.
    cbn [session ui api_log]. unfold bind at 1, emit at 1. cbn [session ui api_log].
    unfold bind at 1. rewrite <- !app_assoc.
    change (ui w ++ [st_text "header" (icon current ++ " " ++ name current ++ " Conversation")] ++
            flat_map (fun m => [st_chat_message (msg_role m);
                                st_markdown (content m)])
                     (messages (session w)) ++
            [st_text "subheader" "📈 Persona-Specific Analytics"])%list
      with (ui w ++ events)%list.
    fold w1. unfold get_session in Hpanel. rewrite Hpanel.
    unfold bind, get_session, emit. cbn [session ui api_log w1].
    rewrite create_persona_data_returns. cbn [session ui api_log].
    now rewrite <- !app_assoc. }
  assert (Hshape : forall panel : list ui_event,
            (ui w ++ events ++ panel ++ [st_dataframe {| columns := table_of k |}] =
             ui w ++
             [st_text "header" (icon current ++ " " ++ name current ++ " Conversation")] ++
             flat_map (fun m => [st_chat_message (msg_role m);
                                 st_markdown (content m)])
                      (messages (session w)) ++
             [st_text "subheader" "📈 Persona-Specific Analytics"] ++
             panel ++ [st_dataframe {| columns := table_of k |}])%list).
  { intros panel. unfold events. now rewrite <- !app_assoc. }
  unfold panel_shows.
  destruct PLOTLY_AVAILABLE.
  - destruct (fst (chart_of plotly_raises k w)) as [fig|e].
    + exists [st_plotly_chart fig]. split.
      * rewrite <- Hshape. apply Hrun.
        unfold bind, get_session. cbn [session current_persona w1]. fold k.
        rewrite Hc. unfold plotly_chart. now rewrite Hfresh1.
      * split; [discriminate|]. split; [|discriminate].
        intros fig' _ H. now injection H as ->.
    + exists [st_text "error" ("Chart error: " ++ exn_str py_repr e)]. split.
      * rewrite <- Hshape. apply Hrun.
        unfold bind, get_session. cbn [session current_persona w1]. fold k.
        rewrite Hc. unfold ret. cbn [session ui api_log w1].
        now rewrite <- !app_assoc.
      * split; [discriminate|]. split; [discriminate|].
        intros e' _ H. now injection H as ->.
  - eexists. split.
    + rewrite <- Hshape. apply Hrun. reflexivity.
    + split; [reflexivity|]. split; discriminate.
Qed.

Lemma footer_spec (current : persona) (p0 p1 : string) (rest : list string)
      (w : world) :
  priorities current = p0 :: p1 :: rest ->
  footer current w =
    (Return tt,
     {| session := session w;
        ui := ui w ++
              [ st_markdown (Some "---");
                st_markdown
                  (Some ("💡 **" ++ icon current ++ " " ++ name current ++
                         " Tip**: Focus on **" ++ p0 ++ "** and **" ++ p1 ++
                         "** for maximum impact!")) ];
        api_log := api_log w |}).
Proof.
  intros Hpr. unfold footer, list_get. rewrite Hpr. cbn [nth_error].
  unfold bind, emit, ret. cbn [session ui api_log]. now rewrite <- app_assoc.
Qed.

Lemma session_eta (s : session_state) (ms : list message) (k : string) :
  messages s = ms -> current_persona s = k ->
  s = {| messages := ms; current_persona := k |}.
Proof. intros <- <-. now destruct s. Qed.

(** One run of the script: how it ends, and the session state and the
    request log after it. *)
Lemma script_effect (selected : string) (user_input : option string) (w : world) :
  In (current_persona (session w)) persona_keys ->
  In selected persona_keys ->
  exists p exchange reqs o w',
    In (selected, p) USER_PERSONAS /\
    run_script selected user_input w = (o, w') /\
    session w' =
      {| messages := messages (session w) ++
                     (if String.eqb selected (current_persona (session w))
                      then [] else [announcement p]) ++
                     exchange;
         current_persona := selected |} /\
    api_log w' = (api_log w ++ reqs)%list /\
    if submitted user_input then
      exists text response,
        user_input = Some text /\
        (forall w2, api_log w2 = api_log w ->
           fst (generate text selected w2) = Return response) /\
        (exists system_prompt,
           reqs = if PyStr.truthy api_key
                  then [completion_request system_prompt text] else []) /\
        ((o = Return tt /\
          exchange = [ {| msg_role := user; content := Some text |};
                       {| msg_role := assistant; content := response |} ] /\
          ~ draws_chart_twice PLOTLY_AVAILABLE plotly_raises selected text w) \/
         (o = Raise duplicate_id /\
          exchange = [ {| msg_role := user; content := Some text |} ] /\
          draws_chart_twice PLOTLY_AVAILABLE plotly_raises selected text w))
    else o = Return tt /\ exchange = [] /\ reqs = [].
Proof.
  intros Hcur Hsel.
  destruct (registry_entry selected Hsel)
    as (p & _ & p0 & p1 & rest & Hp & _ & Hpr & Hget & _).
  set (announced := if String.eqb selected (current_persona (session w))
                    then [] else [announcement p]).
  set (w0 := {| session := session w; ui := ui w ++ [run_start];
                api_log := api_log w |}).
  set (w1 := {| session := {| messages := messages (session w) ++ announced;
                              current_persona := selected |};
                ui := ui w0; api_log := api_log w |}).
  assert (Hswitch : switch_persona selected w0 = (Return tt, w1)).
  { unfold w1, announced.
    destruct (String.eqb_spec selected (current_persona (session w))) as [->|Hne].
    - rewrite (switch_persona_same w0 :
                 switch_persona (current_persona (session w)) w0 = _).
      rewrite app_nil_r. unfold w0. now destruct (session w).
    - exact (switch_persona_other selected p w0 Hne Hp). }
  set (w2 := {| session := session w1;
                ui := ui w1 ++ [st_text "sidebar.success"
                                        ("**Active Role:** " ++ icon p ++ " " ++ name p)];
                api_log := api_log w1 |}).
  assert (Hfresh : forall fig, chart_drawn fig (ui w2) = false).
  { intros fig. cbn [ui w2 w1 w0]. now rewrite !chart_drawn_snoc. }
  destruct (main_chat_interface_spec p w2 Hfresh) as (panel & Hmain & _ & Hpanel & _).
  match type of Hmain with _ = (_, ?w) => set (w3 := w) in * end.
  assert (Hhead : run_script selected user_input w =
                  bind (handle_submit p user_input) (fun _ => footer p) w3).
  { unfold script. unfold bind at 1, emit at 1. fold w0.
    unfold bind at 1. rewrite Hswitch.
    unfold bind at 1, get_session at 1. unfold bind at 1.
    cbn [session current_persona w1]. rewrite Hget.
    unfold bind at 1, emit at 1. fold w2.
    unfold bind at 1. now rewrite Hmain. }
  assert (Hquiet : submitted user_input = false ->
            exists exchange reqs o w',
              run_script selected user_input w = (o, w') /\
              session w' =
                {| messages := messages (session w) ++ announced ++ exchange;
                   current_persona := selected |} /\
              api_log w' = (api_log w ++ reqs)%list /\
              o = Return tt /\ exchange = [] /\ reqs = []).
  { intros Hno. exists [], [], (Return tt). eexists.
    split.
    - rewrite Hhead. unfold bind.
      assert (Hsub : handle_submit p user_input w3 = (Return tt, w3)).
      { unfold submit. destruct user_input as [text|]; [|reflexivity].
        cbn [submitted] in Hno. now rewrite Hno. }
      rewrite Hsub. apply (footer_spec p p0 p1 rest w3 Hpr).
    - cbn [session messages current_persona ui api_log w3 w2 w1].
      rewrite !app_nil_r. repeat split. }
  destruct (submitted user_input) eqn:Hsub.
  2:{ destruct (Hquiet eq_refl) as (ex & rq & o & w' & H2 & H3 & H4 & H5).
      exists p, ex, rq, o, w'.
      split; [exact Hp|]. split; [exact H2|]. split; [exact H3|].
      split; [exact H4 | exact H5]. }
  clear Hquiet. destruct user_input as [text|]; [|discriminate Hsub].
  cbn [submitted] in Hsub.
  assert (Hw3 : In (current_persona (session w3)) persona_keys) by exact Hsel.
  destruct (submit_run p text w3 Hw3 Hsub)
    as (response & reqs & page & o & w4 & Hrun & Hind & Hreqs & Hlog & _ & Hkey & Hcases).
  cbn [session messages current_persona api_log w3 w2 w1] in Hind, Hkey, Hlog, Hcases.
  assert (Htwice : redraws_chart PLOTLY_AVAILABLE plotly_raises selected text w3 <->
                   draws_chart_twice PLOTLY_AVAILABLE plotly_raises selected text w).
  { unfold redraws_chart, draws_chart_twice.
    rewrite (chart_of_outcome selected w3 w). split.
    - intros (Hm & Hplot & fig & Hfig & _). split; [exact Hm|]. split; [exact Hplot|].
      now exists fig.
    - intros (Hm & Hplot & fig & Hfig). split; [exact Hm|]. split; [exact Hplot|].
      exists fig. split; [exact Hfig|].
      rewrite (chart_of_outcome selected w w2) in Hfig.
      pose proof (Hpanel fig Hplot Hfig) as Hpe.
      unfold w3. cbn [ui]. rewrite Hpe.
      set (df := st_dataframe {| columns := table_of (current_persona (session w2)) |}).
      replace (ui w2 ++
               [st_text "header" (icon p ++ " " ++ name p ++ " Conversation")] ++
               flat_map (fun m => [st_chat_message (msg_role m);
                                   st_markdown (content m)])
                        (messages (session w2)) ++
               [st_text "subheader" "📈 Persona-Specific Analytics"] ++
               [st_plotly_chart fig] ++ [df])%list
        with (((ui w2 ++
                [st_text "header" (icon p ++ " " ++ name p ++ " Conversation")] ++
                flat_map (fun m => [st_chat_message (msg_role m);
                                    st_markdown (content m)])
                         (messages (session w2)) ++
                [st_text "subheader" "📈 Persona-Specific Analytics"]) ++
               [st_plotly_chart fig]) ++ [df])%list
        by (now rewrite <- !app_assoc).
      rewrite (chart_drawn_plain fig [df] eq_refl). apply chart_drawn_same. }
  destruct Hcases as [(-> & Hmsgs & Hno) | (-> & Hmsgs & Hyes)].
  - exists p, [ {| msg_role := user; content := Some text |};
                {| msg_role := assistant; content := response |} ], reqs, (Return tt).
    eexists. split; [exact Hp|]. split.
    { rewrite Hhead. unfold bind. rewrite Hrun.
      apply (footer_spec p p0 p1 rest w4 Hpr). }
    cbn [session api_log].
    split; [apply session_eta; [now rewrite Hmsgs, <- app_assoc | exact Hkey]|].
    split; [exact Hlog|].
    exists text, response. split; [reflexivity|]. split; [exact Hind|].
    split; [exact Hreqs|]. left. split; [reflexivity|]. split; [reflexivity|].
    intros Htw. apply Hno, Htwice, Htw.
  - exists p, [ {| msg_role := user; content := Some text |} ], reqs,
           (Raise duplicate_id), w4.
    split; [exact Hp|]. split.
    { rewrite Hhead. unfold bind. now rewrite Hrun. }
    split; [apply session_eta; [now rewrite Hmsgs, <- app_assoc | exact Hkey]|].
    split; [exact Hlog|].
    exists text, response. split; [reflexivity|]. split; [exact Hind|].
    split; [exact Hreqs|]. right. split; [reflexivity|]. split; [reflexivity|].
    apply Htwice, Hyes.
Qed.

(** C3.  The claim fails on the code: in a state whose active key is
    a registry key, a run of the script on a submitted text that mentions
    a keyword, with plotting available and the chart of the selected
    persona building, draws that chart a second time in the run; the
    chart call raises, the run ends there, and the log holds the user
    message without the assistant message: the exchange adds one message,
    not two. *)
Theorem submit_reply_lost_on_keyword (selected text : string) (w : world) :
  In (current_persona (session w)) persona_keys ->
  In selected persona_keys ->
  text <> "" ->
  mentions_keyword text = true ->
  PLOTLY_AVAILABLE = true ->
  (exists fig, fst (chart_of plotly_raises selected w) = Return fig) ->
  exists p w',
    In (selected, p) USER_PERSONAS /\
    run_script selected (Some text) w = (Raise duplicate_id, w') /\
    messages (session w') =
      (messages (session w) ++
       (if String.eqb selected (current_persona (session w))
        then [] else [announcement p]) ++
       [ {| msg_role := user; content := Some text |} ])%list /\
    (selected = current_persona (session w) ->
     length (messages (session w')) = (length (messages (session w)) + 1)%nat).
Proof.
  intros Hcur Hsel Htext Hm Hplot Hfig.
  destruct (script_effect selected (Some text) w Hcur Hsel)
    as (p & exchange & reqs & o & w' & Hp & Hrun & Hsession & _ & Hwhat).
  apply truthy_iff in Htext. cbn [submitted] in Hwhat. rewrite Htext in Hwhat.
  destruct Hwhat as (text' & response & Heq & _ & _ & Hcases).
  injection Heq as <-.
  destruct Hcases as [(_ & _ & Hno) | (-> & -> & _)].
  - exfalso. apply Hno. now split.
  - exists p, w'. split; [exact Hp|]. split; [exact Hrun|].
    rewrite Hsession. cbn [messages]. split; [reflexivity|].
    intros ->. rewrite String.eqb_refl, !length_app. reflexivity.
Qed.

(** C9.  The claim fails on the code in its second half.  The chart and
    table are surfaced exactly when the lower-cased text contains a
    keyword; but with plotting available and the chart building, the
    surfacing changes the conversation state: a run on a text that
    mentions a keyword raises at the chart call and leaves the user
    message alone in the log, while a run on a text without a keyword
    returns and leaves the user message and the assistant message. *)
Theorem analytics_surfacing_loses_reply (text quiet : string) (w : world) :
  In (current_persona (session w)) persona_keys ->
  text <> "" -> quiet <> "" ->
  mentions_keyword text = true ->
  mentions_keyword quiet = false ->
  PLOTLY_AVAILABLE = true ->
  (exists fig, fst (chart_of plotly_raises (current_persona (session w)) w) = Return fig) ->
  (exists keyword pre post,
     In keyword ["analyze"; "research"; "data"; "metrics"] /\
     PyStr.lower text = pre ++ keyword ++ post) /\
  (exists w1,
     run_script (current_persona (session w)) (Some text) w = (Raise duplicate_id, w1) /\
     messages (session w1) =
       (messages (session w) ++
        [ {| msg_role := user; content := Some text |} ])%list) /\
  (exists response w2,
     run_script (current_persona (session w)) (Some quiet) w = (Return tt, w2) /\
     messages (session w2) =
       (messages (session w) ++
        [ {| msg_role := user; content := Some quiet |};
          {| msg_role := assistant; content := response |} ])%list).
Proof.
  intros Hcur Htext Hquiet Hm Hq Hplot Hfig.
  split; [now apply mentions_keyword_iff|]. split.
  - destruct (script_effect (current_persona (session w)) (Some text) w Hcur Hcur)
      as (p & exchange & reqs & o & w' & _ & Hrun & Hsession & _ & Hwhat).
    apply truthy_iff in Htext. cbn [submitted] in Hwhat. rewrite Htext in Hwhat.
    destruct Hwhat as (text' & response & Heq & _ & _ & Hcases).
    injection Heq as <-.
    destruct Hcases as [(_ & _ & Hno) | (-> & -> & _)].
    + exfalso. apply Hno. now split.
    + exists w'. split; [exact Hrun|].
      rewrite Hsession, String.eqb_refl. reflexivity.
  - destruct (script_effect (current_persona (session w)) (Some quiet) w Hcur Hcur)
      as (p & exchange & reqs & o & w' & _ & Hrun & Hsession & _ & Hwhat).
    apply truthy_iff in Hquiet. cbn [submitted] in Hwhat. rewrite Hquiet in Hwhat.
    destruct Hwhat as (text' & response & Heq & _ & _ & Hcases).
    injection Heq as <-.
    destruct Hcases as [(-> & -> & _) | (_ & _ & Hyes)].
    + exists response, w'. split; [exact Hrun|].
      rewrite Hsession, String.eqb_refl. reflexivity.
    + destruct Hyes as (Hyes & _). congruence.
Qed.

(** X8.  One run of the script, from a state whose active key is a
    registry key and with a selector value from the registry.  The
    selected persona is then active, and the log is the old log, then the
    announcement if the selection changed the persona, then what the chat
    input added.  Without a submitted text the run returns and adds
    nothing.  With one, the run returns and adds the user message and the
    assistant message with the generator's response, unless it draws the
    chart a second time (the text mentions a keyword, plotting is
    available and the chart builds): then it raises at that chart call and
    adds the user message alone.  An announcement always comes before the
    messages of the same run. *)
Theorem script_run_log (selected : string) (user_input : option string) (w : world) :
  In (current_persona (session w)) persona_keys ->
  In selected persona_keys ->
  exists p exchange o w',
    In (selected, p) USER_PERSONAS /\
    run_script selected user_input w = (o, w') /\
    current_persona (session w') = selected /\
    messages (session w') =
      (messages (session w) ++
       (if String.eqb selected (current_persona (session w))
        then [] else [announcement p]) ++
       exchange)%list /\
    (if submitted user_input
     then exists text response,
            user_input = Some text /\
            (forall w2, api_log w2 = api_log w ->
               fst (generate text selected w2) = Return response) /\
            ((o = Return tt /\
              exchange = [ {| msg_role := user; content := Some text |};
                           {| msg_role := assistant; content := response |} ] /\
              ~ (mentions_keyword text = true /\ PLOTLY_AVAILABLE = true /\
                 exists fig, fst (chart_of plotly_raises selected w) = Return fig)) \/
             (o = Raise duplicate_id /\
              exchange = [ {| msg_role := user; content := Some text |} ] /\
              mentions_keyword text = true /\ PLOTLY_AVAILABLE = true /\
              exists fig, fst (chart_of plotly_raises selected w) = Return fig))
     else o = Return tt /\ exchange = []).
Proof.
  intros Hcur Hsel.
  destruct (script_effect selected user_input w Hcur Hsel)
    as (p & exchange & reqs & o & w' & Hp & Hrun & Hsession & _ & Hwhat).
  exists p, exchange, o, w'. rewrite Hsession. cbn [messages current_persona].
  split; [exact Hp|]. split; [exact Hrun|]. split; [reflexivity|].
  split; [reflexivity|].
  destruct (submitted user_input).
  - destruct Hwhat as (text & response & Hin & Hind & _ & Hcases).
    exists text, response. split; [exact Hin|]. split; [exact Hind|].
    exact Hcases.
  - destruct Hwhat as (Ho & Hex & _). now split.
Qed.

(** X9.  A run of the script calls the completion service only when a
    non-empty text is submitted and a credential is configured, and then
    once, with the submitted text as the user message; this holds also of
    a run that raises afterwards.  A run without input, or without a
    credential, sends nothing. *)
Theorem script_run_requests (selected : string) (user_input : option string)
        (w : world) :
  In (current_persona (session w)) persona_keys ->
  In selected persona_keys ->
  exists o reqs w',
    run_script selected user_input w = (o, w') /\
    api_log w' = (api_log w ++ reqs)%list /\
    (if submitted user_input && PyStr.truthy api_key
     then exists text system_prompt,
            user_input = Some text /\
            reqs = [completion_request system_prompt text]
     else reqs = []).
Proof.
  intros Hcur Hsel.
  destruct (script_effect selected user_input w Hcur Hsel)
    as (p & exchange & reqs & o & w' & _ & Hrun & _ & Hlog & Hwhat).
  exists o, reqs, w'. split; [exact Hrun|]. split; [exact Hlog|].
  destruct (submitted user_input); cbn [andb].
  - destruct Hwhat as (text & response & Hin & _ & (sp & Hr) & _).
    destruct (PyStr.truthy api_key); [now exists text, sp | exact Hr].
  - apply Hwhat.
Qed.

(** X10.  Running the script again with the selector unchanged and no
    input, as Streamlit does on any other interaction, changes neither
    the session state nor the request log. *)
Theorem script_rerun_changes_nothing (w : world) :
  In (current_persona (session w)) persona_keys ->
  exists w',
    run_script (current_persona (session w)) None w = (Return tt, w') /\
    session w' = session w /\
    api_log w' = api_log w.
Proof.
  intros Hcur.
  destruct (script_effect (current_persona (session w)) None w Hcur Hcur)
    as (p & exchange & reqs & o & w' & _ & Hrun & Hsession & Hlog & Hwhat).
  cbn [submitted] in Hwhat. destruct Hwhat as (-> & -> & ->).
  exists w'. split; [exact Hrun|].
  rewrite Hsession, Hlog, String.eqb_refl, !app_nil_r.
  split; [now destruct (session w) | reflexivity].
Qed.

(** X11.  Any series of user actions whose selector values are registry
    keys, from a state whose active key is a registry key.  Every action
    gets its run; the log keeps its old messages as a prefix; the last
    selected persona is active; the number of requests sent is the number
    of submitted texts when a credential is configured, zero otherwise;
    and the log grows by at most one message for each selection that
    changes the persona and two for each submitted text.  When plotting
    is not available, or no submitted text mentions a keyword, every run
    returns and the log grows by exactly that many messages. *)
Theorem run_all_invariant (actions : list (string * option string)) :
  forall w,
    In (current_persona (session w)) persona_keys ->
    Forall (fun a => In (fst a) persona_keys) actions ->
    exists outcomes added w',
      run_all py_repr duplicate_id_message api_key PLOTLY_AVAILABLE service
              plotly_raises actions w = (outcomes, w') /\
      length outcomes = length actions /\
      messages (session w') = (messages (session w) ++ added)%list /\
      current_persona (session w') =
        last (map fst actions) (current_persona (session w)) /\
      In (current_persona (session w')) persona_keys /\
      length (api_log w') =
        (length (api_log w) +
         (if PyStr.truthy api_key then submissions actions else 0))%nat /\
      (length added <= expected_growth (current_persona (session w)) actions)%nat /\
      (PLOTLY_AVAILABLE = false \/
       Forall (fun a => forall text, snd a = Some text ->
                                     mentions_keyword text = false) actions ->
       Forall (fun o => o = Return tt) outcomes /\
       length added = expected_growth (current_persona (session w)) actions).
Proof.
  induction actions as [|[k user_input] actions IH]; intros w Hcur Hall.
  - exists [], [], w. cbn. rewrite app_nil_r.
    repeat split; auto. destruct (PyStr.truthy api_key); now rewrite Nat.add_0_r.
  - inversion Hall as [|? ? Hk Hrest]; subst. cbn [fst] in Hk.
    destruct (script_effect k user_input w Hcur Hk)
      as (p & exchange & reqs & o & w1 & _ & Hrun & Hsession & Hlog & Hwhat).
    assert (Hcur1 : current_persona (session w1) = k) by now rewrite Hsession.
    assert (Hw1 : In (current_persona (session w1)) persona_keys) by now rewrite Hcur1.
    destruct (IH w1 Hw1 Hrest)
      as (outcomes & added & w' & Hrun' & Hcount & Hmsgs & Hlast & Hin & Hreqs & Hle & Hquiet).
    set (ann := if String.eqb k (current_persona (session w))
                then [] else [announcement p]) in *.
    assert (Hann : length ann = if String.eqb k (current_persona (session w))
                                then 0%nat else 1%nat).
    { unfold ann. now destruct (String.eqb k (current_persona (session w))). }
    assert (Hsent : length reqs =
                    if PyStr.truthy api_key
                    then (if submitted user_input then 1 else 0)%nat else 0%nat).
    { destruct (submitted user_input).
      - destruct Hwhat as (? & ? & _ & _ & (sp & ->) & _).
        now destruct (PyStr.truthy api_key).
      - destruct Hwhat as (_ & _ & ->). now destruct (PyStr.truthy api_key). }
    assert (Hbound : (length exchange <= if submitted user_input then 2 else 0)%nat).
    { destruct (submitted user_input).
      - destruct Hwhat as (? & ? & _ & _ & _ & [(_ & -> & _) | (_ & -> & _)]);
          cbn; lia.
      - destruct Hwhat as (_ & -> & _). cbn. lia. }
    exists (o :: outcomes), (ann ++ exchange ++ added)%list, w'.
    split; [cbn [run_all]; now rewrite Hrun, Hrun'|].
    split; [cbn [length]; now rewrite Hcount|].
    split; [rewrite Hmsgs, Hsession; cbn [messages]; now rewrite <- !app_assoc|].
    split; [rewrite Hlast, Hcur1; cbn [map fst]; now rewrite last_cons|].
    split; [exact Hin|].
    split.
    { rewrite Hreqs, Hlog, length_app, Hsent. unfold submissions.
      cbn [filter snd]. destruct (PyStr.truthy api_key); [|lia].
      destruct (submitted user_input); cbn [length]; lia. }
    split.
    { rewrite !length_app, Hann. cbn [expected_growth]. rewrite Hcur1 in Hle. lia. }
    intros Hq.
    assert (Hq' : PLOTLY_AVAILABLE = false \/
                  Forall (fun a => forall text, snd a = Some text ->
                                                mentions_keyword text = false) actions).
    { destruct Hq as [Hq|Hq]; [now left | right]. now inversion Hq. }
    destruct (Hquiet Hq') as (Hreturns & Hexact).
    assert (Hhere : o = Return tt /\
                    length exchange = if submitted user_input then 2%nat else 0%nat).
    { destruct (submitted user_input).
      - destruct Hwhat as (text & ? & -> & _ & _ & [(-> & -> & _) | (_ & _ & Hyes)]);
          [now split|].
        destruct Hyes as (Hm & Hplot & _). exfalso.
        destruct Hq as [Hq|Hq]; [congruence|].
        inversion Hq as [|? ? Hfirst _]; subst.
        specialize (Hfirst text eq_refl). congruence.
      - destruct Hwhat as (-> & -> & _). now split. }
    destruct Hhere as (-> & Hlen). split; [now constructor|].
    rewrite !length_app, Hann, Hlen, Hexact, Hcur1. cbn [expected_growth]. lia.
Qed.


(** ** Strings in the messages *)

Lemma lower_app (a b : string) :
  PyStr.lower (a ++ b) = PyStr.lower a ++ PyStr.lower b.
Proof. induction a as [|c a IH]; simpl; [reflexivity | now rewrite IH]. Qed.

Lemma lower_char_idem (c : ascii) :
  PyStr.lower_char (PyStr.lower_char c) = PyStr.lower_char c.
Proof. destruct c as [[] [] [] [] [] [] [] []]; reflexivity. Qed.

Lemma lower_idem (s : string) : PyStr.lower (PyStr.lower s) = PyStr.lower s.
Proof.
  induction s as [|c s IH]; cbn [PyStr.lower]; [reflexivity|].
  now rewrite lower_char_idem, IH.
Qed.

Lemma lower_length (s : string) : String.length (PyStr.lower s) = String.length s.
Proof. induction s as [|c s IH]; cbn [PyStr.lower String.length]; congruence. Qed.

Lemma str_length_app (a b : string) :
  String.length (a ++ b) = (String.length a + String.length b)%nat.
Proof. induction a as [|c a IH]; simpl; [reflexivity | now rewrite IH]. Qed.

Lemma contains_app_r (n a h : string) :
  PyStr.contains n h = true -> PyStr.contains n (a ++ h) = true.
Proof.
  rewrite !contains_iff. intros (pre & post & ->).
  exists (a ++ pre), post. now rewrite str_app_assoc.
Qed.

Lemma contains_head (n post : string) : PyStr.contains n (n ++ post) = true.
Proof. apply (contains_infix "" n post). Qed.

Lemma join_contains (sep t : string) (xs : list string) :
  In t xs -> PyStr.contains t (PyStr.join sep xs) = true.
Proof.
  induction xs as [|x xs IH]; [intros []|].
  intros [->|Hin].
  - destruct xs as [|y xs]; cbn [PyStr.join].
    + apply contains_iff. exists "", "". cbn. clear.
      induction t as [|c t IH]; cbn; congruence.
    + apply contains_head.
  - destruct xs as [|y xs]; [destruct Hin|].
    change (PyStr.join sep (x :: y :: xs)) with (x ++ sep ++ PyStr.join sep (y :: xs)).
    now apply contains_app_r, contains_app_r, IH.
Qed.

(** X13.  The keyword test looks for a substring of the lower-cased
    text: a text that triggers still triggers inside any longer text; the
    test gives the same answer on a text and on its lower-cased form; and
    a text shorter than four characters never triggers. *)
Theorem mentions_keyword_substring (text : string) :
  (forall pre post,
     mentions_keyword text = true ->
     mentions_keyword (pre ++ text ++ post) = true) /\
  mentions_keyword (PyStr.lower text) = mentions_keyword text /\
  ((String.length text < 4)%nat -> mentions_keyword text = false).
Proof.
  split; [|split].
  - intros pre post. rewrite !mentions_keyword_iff.
    intros (k & a & b & Hk & Hl).
    exists k, (PyStr.lower pre ++ a), (b ++ PyStr.lower post).
    split; [exact Hk|].
    now rewrite !lower_app, Hl, !str_app_assoc.
  - unfold mentions_keyword. now rewrite lower_idem.
  - intros Hlen. destruct (mentions_keyword text) eqn:Hm; [|reflexivity].
    apply mentions_keyword_iff in Hm as (k & a & b & Hk & Hl).
    apply (f_equal String.length) in Hl.
    rewrite lower_length, !str_length_app in Hl.
    assert (Hk4 : (4 <= String.length k)%nat).
    { cbn in Hk. destruct Hk as [<-|[<-|[<-|[<-|[]]]]]; cbn; repeat constructor. }
    exfalso. apply (Nat.lt_irrefl 4).
    apply (Nat.le_lt_trans _ (String.length text)); [|exact Hlen].
    rewrite Hl. apply (Nat.le_trans _ _ _ Hk4).
    apply (Nat.le_trans _ (String.length k + String.length b));
      [apply Nat.le_add_r | apply Nat.le_add_l].
Qed.

(** X14.  The announcement appended on a switch to another registry
    persona is an assistant message that contains the persona's icon,
    name and description and every one of its priorities. *)
Theorem switch_announcement_content (k : string) (w : world) :
  In k persona_keys ->
  k <> current_persona (session w) ->
  exists p m body w',
    In (k, p) USER_PERSONAS /\
    switch_persona k w = (Return tt, w') /\
    messages (session w') = (messages (session w) ++ [m])%list /\
    msg_role m = assistant /\
    content m = Some body /\
    PyStr.contains (icon p) body = true /\
    PyStr.contains (name p) body = true /\
    PyStr.contains (description p) body = true /\
    (forall t, In t (priorities p) -> PyStr.contains t body = true).
Proof.
  intros Hk Hne.
  destruct (registry_entry k Hk) as (p & _ & _ & _ & _ & Hp & _).
  exists p, (announcement p). do 2 eexists.
  split; [exact Hp|]. split; [exact (switch_persona_other k p w Hne Hp)|].
  cbn [session messages announcement msg_role content].
  split; [reflexivity|]. split; [reflexivity|]. split; [reflexivity|].
  repeat split;
    try (intros t Ht);
    repeat first [ apply contains_head
                 | now apply join_contains
                 | apply contains_app_r ].
Qed.

(** ** Session initialisation *)

(** X15.  Initialising the session state only fills in what is
    missing: a log or an active key already there is kept, so a rerun
    never resets the conversation; initialising twice is the same as
    once; and a fresh session starts with the welcome message alone
    and a registry key active. *)
Theorem init_session_state_fills_missing (r : raw_session_state) :
  init_session_state (init_session_state r) = init_session_state r /\
  (forall m, raw_messages r = Some m ->
             raw_messages (init_session_state r) = Some m) /\
  (forall k, raw_current_persona r = Some k ->
             raw_current_persona (init_session_state r) = Some k) /\
  (raw_messages r = None ->
   raw_messages (init_session_state r) = Some (messages initial_session)) /\
  (raw_current_persona r = None ->
   exists k, raw_current_persona (init_session_state r) = Some k /\
             k = current_persona initial_session /\ In k persona_keys).
Proof.
  destruct r as [[m|] [k|] [d|]]; cbn;
    repeat split; try congruence; try discriminate;
    intros _; eexists; repeat split; cbn; auto.
Qed.

End Properties.

(** * Concrete runs *)

(** The scenario of the specification, as three runs of the script: a
    switch, a submit that mentions a keyword, and a run with the selector
    left on the persona already active.  Without the plotting library the
    log lengths are those of the specification. *)
Example scenario_without_plotly :
  let run := script plain_repr demo_duplicate_message "" false canned_service
                    plotly_works in
  let w1 := snd (run "market_researcher" None initial_world) in
  let w2 := snd (run "market_researcher" (Some "analyze the market") w1) in
  let w3 := snd (run "market_researcher" None w2) in
  length (messages (session initial_world)) = 1%nat /\
  length (messages (session w1)) = 2%nat /\
  current_persona (session w1) = "market_researcher" /\
  fst (run "market_researcher" (Some "analyze the market") w1) = Return tt /\
  length (messages (session w2)) = 4%nat /\
  option_map msg_role (nth_error (messages (session w2)) 3) = Some assistant /\
  mentions_keyword "analyze the market" = true /\
  session w3 = session w2.
Proof. vm_compute. repeat split. Qed.

(** The same scenario with the plotting library: the submit run draws
    the chart of the panel again, raises, and leaves three messages. *)
Example scenario_with_plotly :
  let run := script plain_repr demo_duplicate_message "" true canned_service
                    plotly_works in
  let w1 := snd (run "market_researcher" None initial_world) in
  let w2 := snd (run "market_researcher" (Some "analyze the market") w1) in
  let w3 := snd (run "market_researcher" None w2) in
  length (messages (session w1)) = 2%nat /\
  fst (run "market_researcher" (Some "analyze the market") w1) =
    Raise (StreamlitDuplicateElementId demo_duplicate_message) /\
  length (messages (session w2)) = 3%nat /\
  option_map msg_role (nth_error (messages (session w2)) 2) = Some user /\
  fst (run "market_researcher" None w2) = Return tt /\
  session w3 = session w2.
Proof. vm_compute. repeat split. Qed.

(** A chart already on the page of the run cannot be drawn again, also
    not by the analytics panel. *)
Example panel_after_same_chart_raises :
  let w := snd (main_chat_interface plain_repr demo_duplicate_message true
                                    plotly_works sales_entry initial_world) in
  fst (main_chat_interface plain_repr demo_duplicate_message true plotly_works
                           sales_entry initial_world) = Return tt /\
  fst (main_chat_interface plain_repr demo_duplicate_message true plotly_works
                           sales_entry w) =
    Raise (StreamlitDuplicateElementId demo_duplicate_message).
Proof. vm_compute. repeat split. Qed.

Example keyword_match_ignores_case :
  mentions_keyword "Show me the METRICS" = true /\
  mentions_keyword "metadata" = true /\
  mentions_keyword "hello there" = false.
Proof. vm_compute. repeat split. Qed.

Example effective_switches_example :
  effective_switches "a" ["a"; "b"; "b"; "a"; "a"; "c"] = ["b"; "a"; "c"].
Proof. reflexivity. Qed.

(** A failing service gives the error text. *)
Example unreachable_service_gives_error_text :
  fst (generate_ai_response plain_repr demo_key unreachable_service "hi"
                            "sales_executive" initial_world) =
  Return (Some "**Analysis:** I encountered an error processing your request. Error: Connection refused").
Proof. reflexivity. Qed.

(** A completion with null content gives [None]. *)
Example null_completion_gives_none :
  fst (generate_ai_response plain_repr demo_key null_completion "hi"
                            "sales_executive" initial_world) = Return None.
Proof. reflexivity. Qed.

(** A failing plot call gives no chart and an error on the page. *)
Example broken_layout_gives_no_chart :
  create_persona_chart plain_repr true plotly_layout_broken "financial_analyst"
                       initial_world =
  (Return None,
   {| session := initial_session;
      ui := [st_text "error" "Chart error: Invalid property"];
      api_log := [] |}).
Proof. reflexivity. Qed.

(** C1, as stated, fails: with a credential configured and a service
    whose completion is empty, the generator returns the empty string. *)
Lemma generate_ai_response_may_return_empty :
  ~ (forall py_repr api_key service text k w,
       In k persona_keys ->
       exists s w',
         generate_ai_response py_repr api_key service text k w =
           (Return (Some s), w') /\
         s <> "").
Proof.
  intros H.
  destruct (H plain_repr demo_key empty_completion "hello" "sales_executive"
              initial_world)
    as (s & w' & Hrun & Hne).
  - simpl. auto.
  - vm_compute in Hrun. injection Hrun as Hs _. apply Hne. now rewrite <- Hs.
Qed.

Lemma generate_ai_response_returns_text_witness :
  In "sales_executive" persona_keys /\
  exists r w',
    generate_ai_response plain_repr demo_key null_completion "hi" "sales_executive"
                         initial_world = (Return r, w') /\
    session w' = session initial_world /\
    ((exists s, r = Some s /\ s <> "") \/
     (PyStr.truthy demo_key = true /\
      (r = None \/ r = Some "") /\
      exists req resp others,
        api_log w' = (api_log initial_world ++ [req])%list /\
        null_completion (api_log initial_world) req = Return resp /\
        choices resp = r :: others)).
Proof.
  split; [simpl; auto|].
  apply (generate_ai_response_returns_text plain_repr demo_key null_completion
           "hi" "sales_executive" initial_world).
  simpl; auto.
Defined.

Lemma generate_ai_response_fallback_witness :
  In "market_researcher" persona_keys /\
  PyStr.truthy "" = false /\
  exists p first_priority,
    In ("market_researcher", p) USER_PERSONAS /\
    nth_error (priorities p) 0 = Some first_priority /\
    generate_ai_response plain_repr "" unreachable_service "hi" "market_researcher"
                         initial_world
      = (Return (Some (fallback_text p first_priority)), initial_world) /\
    PyStr.contains (name p) (fallback_text p first_priority) = true /\
    PyStr.contains first_priority (fallback_text p first_priority) = true.
Proof.
  split; [simpl; auto|]. split; [reflexivity|].
  apply (generate_ai_response_fallback plain_repr "" unreachable_service
           "hi" "market_researcher" initial_world); [simpl; auto | reflexivity].
Defined.

Lemma generate_ai_response_unknown_persona_witness :
  ~ In "ceo" persona_keys /\
  generate_ai_response plain_repr demo_key canned_service "hi" "ceo" initial_world
    = (Raise (KeyError "ceo"), initial_world).
Proof.
  assert (H : ~ In "ceo" persona_keys).
  { simpl. intros [H|[H|[H|[H|[H|[]]]]]]; discriminate H. }
  split; [exact H|].
  apply (generate_ai_response_unknown_persona plain_repr demo_key canned_service
           "hi" "ceo" initial_world H).
Defined.

Lemma generate_ai_response_request_witness :
  In "financial_analyst" persona_keys /\
  PyStr.truthy demo_key = true /\
  exists result w',
    generate_ai_response plain_repr demo_key canned_service "What is the ROI?"
                         "financial_analyst" initial_world = (Return result, w') /\
    session w' = session initial_world /\
    api_log w' =
      [ {| model := "mistralai/mixtral-8x7b-instruct";
           req_messages :=
             [ {| msg_role := system;
                  content := Some "You are a financial analyst. Focus on financial metrics, ROI calculations, risk assessment, valuation, and investment recommendations. Provide precise financial numbers.

Always provide specific numbers, metrics, and data-driven insights. Use the persona's focus areas: financial performance, ROI analysis, risk assessment" |};
               {| msg_role := user; content := Some "What is the ROI?" |} ];
           temperature := 3 # 10;
           max_tokens := 1000 |} ].
Proof.
  assert (Hk : In "financial_analyst" persona_keys) by (simpl; auto).
  split; [exact Hk|]. split; [reflexivity|].
  destruct (generate_ai_response_request plain_repr demo_key canned_service
              "What is the ROI?" "financial_analyst" initial_world Hk eq_refl)
    as (p & d & t1 & t2 & t3 & result & w' & Hp & Hd & Hpr & Hrun & Hs & Hlog).
  exists result, w'. split; [exact Hrun|]. split; [exact Hs|].
  assert (Hpe : priorities p =
                ["financial performance"; "ROI analysis"; "risk assessment"]).
  { simpl in Hp.
    destruct Hp as [Hp|[Hp|[Hp|[Hp|[Hp|[]]]]]]; try discriminate Hp.
    now injection Hp as <-. }
  assert (Hde : d = "You are a financial analyst. Focus on financial metrics, ROI calculations, risk assessment, valuation, and investment recommendations. Provide precise financial numbers.").
  { simpl in Hd.
    destruct Hd as [Hd|[Hd|[Hd|[Hd|[Hd|[]]]]]]; try discriminate Hd.
    now injection Hd as <-. }
  subst d. rewrite Hpe in Hpr. injection Hpr as <- <- <-. exact Hlog.
Defined.

Lemma switch_sequence_witness :
  let keys := ["sales_executive"; "market_researcher"; "market_researcher";
               "product_manager"] in
  In (current_persona (session initial_world)) persona_keys /\
  Forall (fun k => In k persona_keys) keys /\
  exists anns w',
    switch_all keys initial_world = (Return tt, w') /\
    messages (session w') = (messages (session initial_world) ++ anns)%list /\
    Forall2 announces ["market_researcher"; "product_manager"] anns /\
    length (messages (session w')) = 3%nat /\
    current_persona (session w') = "product_manager".
Proof.
  intros keys.
  assert (Hcur : In (current_persona (session initial_world)) persona_keys)
    by (simpl; auto).
  assert (Hkeys : Forall (fun k => In k persona_keys) keys)
    by (repeat constructor; simpl; auto 10).
  split; [exact Hcur|]. split; [exact Hkeys|].
  destruct (switch_sequence keys initial_world Hcur Hkeys)
    as (_ & _ & anns & w' & Hrun & Hmsgs & Hanns & Hlen & Hlast & _).
  exists anns, w'. repeat split; assumption.
Defined.

Lemma unknown_key_gets_product_manager_content_witness :
  ~ In "ceo" persona_keys /\
  create_persona_data "ceo" initial_world =
    create_persona_data "product_manager" initial_world /\
  create_persona_chart plain_repr true plotly_works "ceo" initial_world =
    create_persona_chart plain_repr true plotly_works "product_manager" initial_world /\
  exists fig,
    create_persona_chart plain_repr true plotly_works "ceo" initial_world =
      (Return (Some fig), initial_world) /\
    title (fig_layout fig) = Some "🎯 Feature Impact vs Effort Analysis".
Proof.
  assert (H : ~ In "ceo" persona_keys).
  { simpl. intros [H|[H|[H|[H|[H|[]]]]]]; discriminate H. }
  split; [exact H|].
  destruct (unknown_key_gets_product_manager_content plain_repr true plotly_works
              "ceo" initial_world H) as (_ & Htable & Hchart & Hfig).
  split; [exact Htable|]. split; [exact Hchart|].
  eexists. split; [apply Hfig; reflexivity|]. reflexivity.
Defined.

(** The failing input of C3: the first submit of a session, with the
    plotting library, on a text that mentions a keyword. *)
Lemma submit_reply_lost_on_keyword_witness :
  In (current_persona (session initial_world)) persona_keys /\
  In "sales_executive" persona_keys /\
  "analyze the market" <> "" /\
  mentions_keyword "analyze the market" = true /\
  (exists fig, fst (chart_of plotly_works "sales_executive" initial_world) = Return fig) /\
  exists w',
    script plain_repr demo_duplicate_message demo_key true canned_service plotly_works
           "sales_executive" (Some "analyze the market") initial_world =
      (Raise (StreamlitDuplicateElementId demo_duplicate_message), w') /\
    messages (session w') =
      [ welcome; {| msg_role := user; content := Some "analyze the market" |} ] /\
    length (messages (session w')) = 2%nat.
Proof.
  assert (Hcur : In (current_persona (session initial_world)) persona_keys)
    by (simpl; auto).
  assert (Htext : "analyze the market" <> "") by discriminate.
  assert (Hfig : exists fig,
             fst (chart_of plotly_works "sales_executive" initial_world) = Return fig)
    by (eexists; reflexivity).
  split; [exact Hcur|]. split; [exact Hcur|]. split; [exact Htext|].
  split; [reflexivity|]. split; [exact Hfig|].
  destruct (submit_reply_lost_on_keyword plain_repr demo_duplicate_message demo_key
              true canned_service plotly_works "sales_executive"
              "analyze the market" initial_world Hcur Hcur Htext eq_refl eq_refl Hfig)
    as (p & w' & _ & Hrun & Hmsgs & Hlen).
  exists w'. split; [exact Hrun|]. split; [exact Hmsgs | exact (Hlen eq_refl)].
Defined.

(** The failing input of C9: the same state, a text with a keyword and
    a text without one. *)
Lemma analytics_surfacing_loses_reply_witness :
  In (current_persona (session initial_world)) persona_keys /\
  mentions_keyword "Any DATA on churn?" = true /\
  mentions_keyword "hello there" = false /\
  (exists w1,
     script plain_repr demo_duplicate_message "" true canned_service plotly_works
            "sales_executive" (Some "Any DATA on churn?") initial_world =
       (Raise (StreamlitDuplicateElementId demo_duplicate_message), w1) /\
     messages (session w1) =
       [ welcome; {| msg_role := user; content := Some "Any DATA on churn?" |} ]) /\
  (exists response w2,
     script plain_repr demo_duplicate_message "" true canned_service plotly_works
            "sales_executive" (Some "hello there") initial_world = (Return tt, w2) /\
     messages (session w2) =
       [ welcome; {| msg_role := user; content := Some "hello there" |};
         {| msg_role := assistant; content := response |} ]).
Proof.
  assert (Hcur : In (current_persona (session initial_world)) persona_keys)
    by (simpl; auto).
  assert (Hfig : exists fig,
             fst (chart_of plotly_works (current_persona (session initial_world))
                           initial_world) = Return fig)
    by (eexists; reflexivity).
  split; [exact Hcur|]. split; [reflexivity|]. split; [reflexivity|].
  destruct (analytics_surfacing_loses_reply plain_repr demo_duplicate_message ""
              true canned_service plotly_works "Any DATA on churn?" "hello there"
              initial_world Hcur)
    as (_ & Hloud & Hquiet);
    [discriminate | discriminate | reflexivity | reflexivity | reflexivity
    | exact Hfig |].
  split; [exact Hloud | exact Hquiet].
Defined.

(** ** Concrete runs for the further properties *)

Lemma generate_ai_response_service_failure_witness :
  In "sales_executive" persona_keys /\
  PyStr.truthy demo_key = true /\
  exists req,
    unreachable_service (api_log initial_world) req =
      Raise (Exception "Connection refused") /\
    generate_ai_response plain_repr demo_key unreachable_service "hi"
                         "sales_executive" initial_world =
      (Return (Some "**Analysis:** I encountered an error processing your request. Error: Connection refused"),
       {| session := initial_session; ui := []; api_log := [req] |}).
Proof.
  assert (Hk : In "sales_executive" persona_keys) by (simpl; auto).
  split; [exact Hk|]. split; [reflexivity|].
  destruct (generate_ai_response_service_failure plain_repr demo_key
              unreachable_service "hi" "sales_executive" initial_world Hk eq_refl)
    as (req & _ & Hfail).
  exists req. split; [reflexivity|].
  exact (Hfail (Exception "Connection refused") eq_refl).
Defined.


Lemma create_persona_chart_shape_witness :
  exists fig,
    create_persona_chart plain_repr true plotly_works "financial_analyst"
                         initial_world =
      (Return (Some fig), initial_world) /\
    height (fig_layout fig) = Some 400%Z /\
    length (fig_data fig) = 2%nat.
Proof.
  eexists. split; [reflexivity|].
  destruct (create_persona_chart_shape plain_repr true plotly_works
              "financial_analyst" initial_world initial_world _ eq_refl)
    as (_ & Hh & _ & _).
  split; [exact Hh | reflexivity].
Defined.

Lemma create_persona_chart_total_witness :
  true = true /\
  (forall c, plotly_works c = None) /\
  exists fig,
    create_persona_chart plain_repr true plotly_works "anything" initial_world =
      (Return (Some fig), initial_world).
Proof.
  split; [reflexivity|]. split; [reflexivity|].
  apply (create_persona_chart_total plain_repr true plotly_works "anything"
           initial_world); reflexivity.
Defined.

Lemma switch_persona_unknown_key_witness :
  In (current_persona (session initial_world)) persona_keys /\
  ~ In "ceo" persona_keys /\
  switch_persona "ceo" initial_world =
    (Raise (KeyError "ceo"),
     {| session := {| messages := [welcome]; current_persona := "ceo" |};
        ui := []; api_log := [] |}).
Proof.
  assert (Hcur : In (current_persona (session initial_world)) persona_keys)
    by (simpl; auto).
  assert (H : ~ In "ceo" persona_keys).
  { simpl. intros [H|[H|[H|[H|[H|[]]]]]]; discriminate H. }
  split; [exact Hcur|]. split; [exact H|].
  apply (switch_persona_unknown_key "ceo" initial_world Hcur H).
Defined.

Lemma switch_sequence_no_repeats_witness :
  let keys := ["market_researcher"; "market_researcher"; "sales_executive"] in
  In (current_persona (session initial_world)) persona_keys /\
  Forall (fun k => In k persona_keys) keys /\
  exists announced anns w',
    switch_all keys initial_world = (Return tt, w') /\
    messages (session w') = (messages (session initial_world) ++ anns)%list /\
    Forall2 announces announced anns /\
    changes_each_time "sales_executive" announced /\
    (length anns <= 3)%nat.
Proof.
  intros keys.
  assert (Hcur : In (current_persona (session initial_world)) persona_keys)
    by (simpl; auto).
  assert (Hkeys : Forall (fun k => In k persona_keys) keys)
    by (repeat constructor; simpl; auto 10).
  split; [exact Hcur|]. split; [exact Hkeys|].
  destruct (switch_sequence_no_repeats keys initial_world Hcur Hkeys) as [H _].
  exact H.
Defined.

Lemma script_run_log_witness :
  In (current_persona (session initial_world)) persona_keys /\
  In "market_researcher" persona_keys /\
  (exists p w',
     In ("market_researcher", p) USER_PERSONAS /\
     script plain_repr demo_duplicate_message "" true canned_service plotly_works
            "market_researcher" (Some "analyze the market") initial_world =
       (Raise (StreamlitDuplicateElementId demo_duplicate_message), w') /\
     messages (session w') =
       [ welcome; announcement p;
         {| msg_role := user; content := Some "analyze the market" |} ]) /\
  (exists p response w',
     In ("market_researcher", p) USER_PERSONAS /\
     script plain_repr demo_duplicate_message "" true canned_service plotly_works
            "market_researcher" (Some "hello there") initial_world = (Return tt, w') /\
     messages (session w') =
       [ welcome; announcement p;
         {| msg_role := user; content := Some "hello there" |};
         {| msg_role := assistant; content := response |} ]).
Proof.
  assert (Hcur : In (current_persona (session initial_world)) persona_keys)
    by (simpl; auto).
  assert (Hsel : In "market_researcher" persona_keys) by (simpl; auto).
  split; [exact Hcur|]. split; [exact Hsel|]. split.
  - destruct (script_run_log plain_repr demo_duplicate_message "" true canned_service
                plotly_works "market_researcher" (Some "analyze the market")
                initial_world Hcur Hsel)
      as (p & exchange & o & w' & Hp & Hrun & _ & Hmsgs & Hwhat).
    cbn [submitted PyStr.truthy] in Hwhat.
    destruct Hwhat as (text & response & Heq & _ & Hcases). injection Heq as <-.
    destruct Hcases as [(_ & _ & Hno) | (Ho & Hex & _)].
    + exfalso. apply Hno. split; [reflexivity|]. split; [reflexivity|].
      eexists. reflexivity.
    + exists p, w'. split; [exact Hp|]. rewrite Ho in Hrun. split; [exact Hrun|].
      rewrite Hmsgs, Hex. reflexivity.
  - destruct (script_run_log plain_repr demo_duplicate_message "" true canned_service
                plotly_works "market_researcher" (Some "hello there")
                initial_world Hcur Hsel)
      as (p & exchange & o & w' & Hp & Hrun & _ & Hmsgs & Hwhat).
    cbn [submitted PyStr.truthy] in Hwhat.
    destruct Hwhat as (text & response & Heq & _ & Hcases). injection Heq as <-.
    destruct Hcases as [(Ho & Hex & _) | (_ & _ & Hm & _)].
    + exists p, response, w'. split; [exact Hp|]. rewrite Ho in Hrun.
      split; [exact Hrun|]. rewrite Hmsgs, Hex. reflexivity.
    + discriminate Hm.
Defined.

Lemma script_run_requests_witness :
  In (current_persona (session initial_world)) persona_keys /\
  In "sales_executive" persona_keys /\
  exists o reqs w',
    script plain_repr demo_duplicate_message demo_key true canned_service plotly_works
           "sales_executive" (Some "Which metrics matter?") initial_world = (o, w') /\
    api_log w' = reqs /\
    exists text system_prompt,
      Some "Which metrics matter?" = Some text /\
      reqs = [completion_request system_prompt text].
Proof.
  assert (Hcur : In (current_persona (session initial_world)) persona_keys)
    by (simpl; auto).
  split; [exact Hcur|]. split; [exact Hcur|].
  exact (script_run_requests plain_repr demo_duplicate_message demo_key true
           canned_service plotly_works "sales_executive"
           (Some "Which metrics matter?") initial_world Hcur Hcur).
Defined.

Lemma script_rerun_changes_nothing_witness :
  In (current_persona (session initial_world)) persona_keys /\
  exists w',
    script plain_repr demo_duplicate_message demo_key true unreachable_service
           plotly_layout_broken "sales_executive" None initial_world =
      (Return tt, w') /\
    session w' = initial_session /\
    api_log w' = [].
Proof.
  assert (Hcur : In (current_persona (session initial_world)) persona_keys)
    by (simpl; auto).
  split; [exact Hcur|].
  exact (script_rerun_changes_nothing plain_repr demo_duplicate_message demo_key
           true unreachable_service plotly_layout_broken initial_world Hcur).
Defined.

Lemma run_all_invariant_witness :
  let actions := [ ("market_researcher", None);
                   ("market_researcher", Some "analyze the market");
                   ("market_researcher", Some "");
                   ("sales_executive", Some "pipeline?") ] in
  In (current_persona (session initial_world)) persona_keys /\
  Forall (fun a => In (fst a) persona_keys) actions /\
  (exists outcomes added w',
     run_all plain_repr demo_duplicate_message demo_key false canned_service
             plotly_works actions initial_world = (outcomes, w') /\
     Forall (fun o => o = Return tt) outcomes /\
     messages (session w') = (welcome :: added)%list /\
     length added = 6%nat /\
     current_persona (session w') = "sales_executive" /\
     length (api_log w') = 2%nat) /\
  (exists outcomes added w',
     run_all plain_repr demo_duplicate_message demo_key true canned_service
             plotly_works actions initial_world = (outcomes, w') /\
     length outcomes = 4%nat /\
     messages (session w') = (welcome :: added)%list /\
     (length added <= 6)%nat /\
     length (api_log w') = 2%nat).
Proof.
  intros actions.
  assert (Hcur : In (current_persona (session initial_world)) persona_keys)
    by (simpl; auto).
  assert (Hall : Forall (fun a => In (fst a) persona_keys) actions)
    by (repeat constructor; simpl; auto 10).
  split; [exact Hcur|]. split; [exact Hall|]. split.
  - destruct (run_all_invariant plain_repr demo_duplicate_message demo_key false
                canned_service plotly_works actions initial_world Hcur Hall)
      as (outcomes & added & w' & Hrun & _ & Hmsgs & Hlast & _ & Hreqs & _ & Hquiet).
    destruct (Hquiet (or_introl eq_refl)) as (Hreturns & Hlen).
    exists outcomes, added, w'. repeat split; assumption.
  - destruct (run_all_invariant plain_repr demo_duplicate_message demo_key true
                canned_service plotly_works actions initial_world Hcur Hall)
      as (outcomes & added & w' & Hrun & Hcount & Hmsgs & _ & _ & Hreqs & Hle & _).
    exists outcomes, added, w'. repeat split; assumption.
Defined.


Lemma switch_announcement_content_witness :
  In "strategic_planner" persona_keys /\
  "strategic_planner" <> current_persona (session initial_world) /\
  exists p m body w',
    In ("strategic_planner", p) USER_PERSONAS /\
    switch_persona "strategic_planner" initial_world = (Return tt, w') /\
    messages (session w') = [welcome; m] /\
    msg_role m = assistant /\
    content m = Some body /\
    PyStr.contains (name p) body = true /\
    (forall t, In t (priorities p) -> PyStr.contains t body = true).
Proof.
  assert (Hk : In "strategic_planner" persona_keys) by (simpl; auto 10).
  assert (Hne : "strategic_planner" <> current_persona (session initial_world))
    by discriminate.
  split; [exact Hk|]. split; [exact Hne|].
  destruct (switch_announcement_content "strategic_planner" initial_world Hk Hne)
    as (p & m & body & w' & Hp & Hrun & Hmsgs & Hrole & Hbody & _ & Hname & _ & Hprio).
  exists p, m, body, w'. repeat split; assumption.
Defined.
